(** * dfsummary: summary table, correlation preparation and plot grids

    A shallow embedding of [dfsummary/dfsummary_helpers.py] and
    [dfsummary/dfsummary.py].

    Modelling boundary.
    - A pandas frame is kept column-major, as pandas keeps it: an index of
      row labels and an ordered list of labelled, typed columns.  A column
      label is a string or an integer; labels may repeat.  A null cell (NaN,
      None, NaT) is [None].
    - A float64 value is the rational it denotes, and float64 arithmetic
      rounds every result to the nearest value of 53 significant bits, ties
      to even ([f64]); overflow and subnormal values are out of reach of the
      quotients and percentages computed here.  NaN is the null cell;
      infinities are not represented.
      Python strings are [string]; [str.lower] and [str.capitalize] act on
      the ASCII letters.
    - [print] appends a line to the standard output of the world; a Python
      exception is the left injection of the result.  Frames that are
      assigned to in place live in the object store of the world.
    - pandas, numpy, matplotlib and seaborn are libraries the code calls.
      What the code relies on is written out as they document it: [dropna],
      [select_dtypes], column selection and assignment, transposition, the
      dispatch of [corr] on the method name, the shape of the axes array of
      [plt.subplots].  What they compute numerically (means, quantiles,
      correlation coefficients), the draws of the random generator and the
      drawing calls are interfaces ([NumericEngine], [RandomSource],
      [Plotter]); a reduction and a drawing call may raise.  A figure is the
      record of what was asked to be drawn. *)

From Stdlib Require Import ZArith QArith Qabs Qround Qcanon Qpower String Ascii List Lia Lqa.
From stdpp Require Import base option list strings gmap pretty.

Local Open Scope string_scope.
Local Open Scope Z_scope.

(** ** Python values and effects *)

(** A column label: a string, or an integer (as the label 0 that
    [Series.to_frame] gives the column of an unnamed series). *)
Inductive label :=
  | LStr (s : string)
  | LInt (z : Z).

Coercion LStr : string >-> label.

Global Instance label_eq_dec : EqDecision label.
Proof. solve_decision. Defined.

Global Instance label_inhabited : Inhabited label := populate (LStr "").

(** How a label prints inside an f-string. *)
Definition label_str (l : label) : string :=
  match l with
  | LStr s => s
  | LInt z => pretty z
  end.

Inductive exn :=
  | KeyError (missing : list label)
  | ValueError (msg : string)
  | TypeError (msg : string)
  | AttributeError (msg : string).

(** [str.lower] on the ASCII range. *)
Definition lower_ascii (c : ascii) : ascii :=
  let n := N_of_ascii c in
  if ((65 <=? n) && (n <=? 90))%N then ascii_of_N (n + 32) else c.

Definition upper_ascii (c : ascii) : ascii :=
  let n := N_of_ascii c in
  if ((97 <=? n) && (n <=? 122))%N then ascii_of_N (n - 32) else c.

Fixpoint lower (s : string) : string :=
  match s with
  | EmptyString => EmptyString
  | String c s' => String (lower_ascii c) (lower s')
  end.

(** [str.capitalize]: first character upper case, the rest lower case. *)
Definition capitalize (s : string) : string :=
  match s with
  | EmptyString => EmptyString
  | String c s' => String (upper_ascii c) (lower s')
  end.

(** [sep.join(l)] on strings. *)
Definition join (sep : string) (l : list string) : string := String.concat sep l.

(** The items of [sep.join(l)] on labels: every item must be a string, and
    the first one that is not is refused, by its position. *)
Fixpoint join_items (i : nat) (l : list label) : exn + list string :=
  match l with
  | [] => inr []
  | LStr s :: l' =>
      match join_items (S i) l' with
      | inr items => inr (s :: items)
      | inl e => inl e
      end
  | LInt _ :: _ =>
      inl (TypeError ("sequence item " +:+ pretty i +:+ ": expected str instance, int found"))
  end.

Definition str_join (sep : string) (l : list label) : exn + string :=
  match join_items 0 l with
  | inr items => inr (join sep items)
  | inl e => inl e
  end.

(** ** Floating point *)

(** [np.rint]: round to the nearest integer, halves to the even one. *)
Definition rint (q : Q) : Z :=
  let f := Qfloor q in
  match (q - inject_Z f ?= 1 # 2)%Q with
  | Lt => f
  | Gt => f + 1
  | Eq => if Z.even f then f else f + 1
  end.

(** The float64 nearest to a rational: with [exp] the exponent of the
    leading bit of [q], so that 2^exp <= |q| < 2^(exp+1), the quotient of
    [q] by the unit in the last of 53 places is rounded to the nearest
    integer, halves to the even one. *)
Definition f64 (q : Q) : Q :=
  if Qeq_bool q 0 then 0%Q
  else
    let E := Z.log2 (Z.abs (Qnum q)) - Z.log2 (Zpos (Qden q)) in
    let exp := if Qle_bool (2 ^ E) (Qabs q) then E else E - 1 in
    let ulp := (2 ^ exp / 2 ^ 52)%Q in
    (inject_Z (Z.sgn (Qnum q) * rint (Qabs q / ulp)) * ulp)%Q.

(** Conversion of an integer, true division and multiplication in float64. *)
Definition float_of_int (z : Z) : Qc := Q2Qc (f64 (inject_Z z)).
Definition float_truediv (x y : Qc) : Qc := Q2Qc (f64 (x / y)).
Definition float_mul (x y : Qc) : Qc := Q2Qc (f64 (x * y)).

Definition Qc_of_Z (z : Z) : Qc := Q2Qc (inject_Z z).

(** ** Frames *)

Inductive dtype := int64 | float64 | bool_ | object_ | datetime64.

Global Instance dtype_eq_dec : EqDecision dtype.
Proof. solve_decision. Defined.

(** [np.number] covers the integer and floating dtypes. *)
Definition is_number (d : dtype) : bool :=
  match d with
  | int64 | float64 => true
  | _ => false
  end.

Inductive scalar :=
  | SInt (z : Z)
  | SFloat (q : Qc)
  | SStr (s : string)
  | SBool (b : bool)
  | SDtype (d : dtype).

(** A cell; [None] is the null value. *)
Definition cell := option scalar.

Definition notnull (c : cell) : bool :=
  match c with
  | Some _ => true
  | None => false
  end.

Definition isnull (c : cell) : bool := negb (notnull c).

Record Column := mkColumn {
  c_name : label;
  c_dtype : dtype;
  c_values : list cell
}.

Record Series (I : Type) := mkSeries {
  s_name : option label;
  s_index : list I;
  s_dtype : dtype;
  s_values : list cell
}.
Arguments mkSeries {I} _ _ _ _.
Arguments s_name {I} _.
Arguments s_index {I} _.
Arguments s_dtype {I} _.
Arguments s_values {I} _.

Record Frame (I : Type) := mkFrame {
  index : list I;
  columns : list Column
}.
Arguments mkFrame {I} _ _.
Arguments index {I} _.
Arguments columns {I} _.

(** The caller's dataset: rows labelled by integers. *)
Abbreviation DataFrame := (Frame Z).

Section frames.
Context {I : Type}.

(** [len(df)] and [df.shape]. *)
Definition len (df : Frame I) : nat := length (index df).
Definition shape (df : Frame I) : nat * nat := (length (index df), length (columns df)).

(** [df.columns]. *)
Definition column_names (df : Frame I) : list label := map c_name (columns df).

(** The invariant of a dataset: every column has one cell per row label. *)
Definition well_formed (df : Frame I) : Prop :=
  Forall (fun c => length (c_values c) = length (index df)) (columns df).

(** The cell of column [c] in row position [i]; out of range reads null. *)
Definition cell_at (c : Column) (i : nat) : cell := mjoin (c_values c !! i).

(** Row [i] across the given columns, and all rows of a frame. *)
Definition row_of (cols : list Column) (i : nat) : list cell :=
  map (fun c => cell_at c i) cols.
Definition rows (df : Frame I) : list (list cell) :=
  map (row_of (columns df)) (seq 0 (len df)).

(** [df.select_dtypes(include=np.number)]. *)
Definition select_dtypes_number (df : Frame I) : Frame I :=
  mkFrame (index df) (filter (fun c => is_number (c_dtype c) = true) (columns df)).

(** [df.copy()]. *)
Definition copy (df : Frame I) : Frame I := mkFrame (index df) (columns df).

(** [df.notnull().sum()] for one column, and [df.count(axis=1)] for one
    row position over the given columns. *)
Definition count_notnull (c : Column) : nat :=
  length (filter (fun x => notnull x = true) (c_values c)).
Definition count_null (c : Column) : nat :=
  length (filter (fun x => isnull x = true) (c_values c)).
Definition count_notnull_row (cols : list Column) (i : nat) : nat :=
  length (filter (fun c => notnull (cell_at c i) = true) cols).

(** [df.dtypes] and [df.isnull().sum()]: one entry per column, labelled by
    the column labels. *)
Definition dtypes (df : Frame I) : Series label :=
  mkSeries None (column_names df) object_
           (map (fun c => Some (SDtype (c_dtype c))) (columns df)).

Definition isnull_sum (df : Frame I) : Series label :=
  mkSeries None (column_names df) int64
           (map (fun c => Some (SInt (Z.of_nat (count_null c)))) (columns df)).

(** [df.notnull().sum().sum()]. *)
Definition notnull_total (df : Frame I) : nat :=
  foldr (fun c acc => (count_notnull c + acc)%nat) 0%nat (columns df).

(** [df.loc[mask]]: the rows at the positions where the mask holds, in
    order; the labels and the cells of every column are taken there. *)
Definition take_rows (positions : list nat) (df : Frame I) : Frame I :=
  mkFrame (omap (fun i => index df !! i) positions)
          (map (fun c => mkColumn (c_name c) (c_dtype c) (map (cell_at c) positions))
               (columns df)).

(** [df.dropna(axis=0, how='any', subset=subset)]: the rows are judged on
    the named columns (all columns without [subset]); a label that is not a
    column raises [KeyError]; a row is kept when its count of non-null
    cells over those columns equals their number. *)
Definition dropna_rows (subset : option (list label)) (df : Frame I) : exn + Frame I :=
  let agg_obj :=
    match subset with
    | None => inr (columns df)
    | Some names =>
        let missing := filter (fun n => n ∉ column_names df) names in
        if decide (missing = [])
        then inr (flat_map (fun n => filter (fun c => c_name c = n) (columns df)) names)
        else inl (KeyError missing)
    end in
  match agg_obj with
  | inl e => inl e
  | inr cols =>
      let mask := fun i => count_notnull_row cols i = length cols in
      inr (take_rows (filter mask (seq 0 (len df))) df)
  end.

(** [df.dropna(axis=1, how='any')]: a column is kept when its count of
    non-null cells equals the number of rows. *)
Definition dropna_cols (df : Frame I) : Frame I :=
  mkFrame (index df) (filter (fun c => count_notnull c = len df) (columns df)).

(** [Series.to_frame()]: one column, labelled by the name of the series; the
    label of an unnamed series is the integer 0. *)
Definition to_frame (s : Series I) : Frame I :=
  mkFrame (s_index s)
          [mkColumn (default (LInt 0) (s_name s)) (s_dtype s) (s_values s)].

(** [df[name]] where a column is expected: the column of that label.  When
    the label names several columns [df[name]] is a frame, the mask
    [df[name].notnull()] has two dimensions and [df.loc[mask, name]]
    refuses it. *)
Definition loc_column (df : Frame I) (name : label) : exn + Column :=
  match filter (fun c => c_name c = name) (columns df) with
  | [c] => inr c
  | [] => inl (KeyError [name])
  | _ => inl (ValueError "Cannot index with multidimensional key")
  end.
End frames.

(** ** Series, column assignment and transposition *)

Section series.
Context {I : Type} `{!EqDecision I}.

(** [df[name]]. *)
Definition getitem (t : Frame I) (name : label) : exn + Series I :=
  match filter (fun c => c_name c = name) (columns t) with
  | c :: _ => inr (mkSeries (Some name) (index t) (c_dtype c) (c_values c))
  | [] => inl (KeyError [name])
  end.

(** The value of label [l] in a series; a label the series lacks reads null. *)
Fixpoint series_lookup (labels : list I) (values : list cell) (l : I) : cell :=
  match labels, values with
  | l' :: labels', v :: values' =>
      if decide (l' = l) then v else series_lookup labels' values' l
  | _, _ => None
  end.

(** [df[name] = s].  A frame without row labels first takes the index of a
    non-empty series, its columns filled with nulls.  The values are then
    taken in order when the series carries the frame's index (or the frame
    has no row label) and are realigned on the labels otherwise, which a
    series with a duplicated label refuses.  A new name is appended as the
    last column, an existing one is replaced. *)
Definition setitem (t : Frame I) (name : label) (s : Series I) : exn + Frame I :=
  let t :=
    match index t, s_values s with
    | [], _ :: _ =>
        mkFrame (s_index s)
                (map (fun c => mkColumn (c_name c) (c_dtype c) (map (fun _ => None) (s_index s)))
                     (columns t))
    | _, _ => t
    end in
  let values :=
    if decide (s_index s = index t \/ index t = []) then inr (s_values s)
    else if decide (NoDup (s_index s))
         then inr (map (series_lookup (s_index s) (s_values s)) (index t))
         else inl (ValueError "cannot reindex on an axis with duplicate labels") in
  match values with
  | inl e => inl e
  | inr values =>
      let c := mkColumn name (s_dtype s) values in
      inr (if decide (name ∈ column_names t)
           then mkFrame (index t)
                        (map (fun c' => if decide (c_name c' = name) then c else c') (columns t))
           else mkFrame (index t) (columns t ++ [c]))
  end.

Definition series_map (f : cell -> cell) (d : dtype) (s : Series I) : Series I :=
  mkSeries (s_name s) (s_index s) d (map f (s_values s)).
End series.

(** [x / n] on a cell: true division in float64; [0 / 0] is NaN.  (A
    non-zero count over zero rows, an infinity in numpy, cannot come from a
    frame and reads null as well.) *)
Definition cell_truediv (n : Z) (c : cell) : cell :=
  match c with
  | Some (SInt z) =>
      if n =? 0 then None
      else Some (SFloat (float_truediv (float_of_int z) (float_of_int n)))
  | Some (SFloat q) =>
      if n =? 0 then None else Some (SFloat (float_truediv q (float_of_int n)))
  | _ => None
  end.

(** [x * n] on a cell: an integer stays one, a float is multiplied by the
    integer converted to float64. *)
Definition cell_mul (n : Z) (c : cell) : cell :=
  match c with
  | Some (SInt z) => Some (SInt (z * n))
  | Some (SFloat q) => Some (SFloat (float_mul q (float_of_int n)))
  | _ => None
  end.

(** [round(x, ndigits)] on a float64, as numpy computes it: multiply by the
    power of ten, round to the nearest integer, divide by the power of ten,
    each step in float64. *)
Definition round_ndigits (ndigits : nat) (q : Qc) : Qc :=
  let f := float_of_int (10 ^ Z.of_nat ndigits) in
  float_truediv (float_of_int (rint (float_mul q f))) f.

Definition cell_round (ndigits : nat) (c : cell) : cell :=
  match c with
  | Some (SFloat q) => Some (SFloat (round_ndigits ndigits q))
  | other => other
  end.

(** The dtype of a transposed column: that of the frame when all its columns
    agree, [object] otherwise. *)
Definition common_dtype (cols : list Column) : dtype :=
  match cols with
  | c :: cols' =>
      if forallb (fun c' => bool_decide (c_dtype c' = c_dtype c)) cols'
      then c_dtype c else object_
  | [] => object_
  end.

(** [df.T]: the column labels become the index, every row label becomes a
    column holding that row. *)
Definition T (t : Frame label) : Frame label :=
  mkFrame (column_names t)
          (imap (fun i label => mkColumn label (common_dtype (columns t)) (row_of (columns t) i))
                (index t)).

(** ** The plot orchestrator: construction *)

(** Class-level formatting defaults. *)
Definition ncols : Z := 3.

(** [int(np.ceil(n / (1.0 * ncols)))], then the floor of two rows. *)
Definition grid_nrows (n : nat) : Z :=
  let nrows := Qceiling (inject_Z (Z.of_nat n) / (1 * inject_Z ncols)) in
  if nrows <=? 1 then nrows + 1 else nrows.

Inductive pyval :=
  | PInt (z : Z)
  | PStr (s : string)
  | PFrame (f : Frame label).

Record DfSummary := mkDfSummary {
  df : DataFrame;
  nrows : Z;
  heatmap_data : option (gmap string pyval)
}.

(** [DfSummary.__init__]: a series is cast to a frame; the number of subplot
    rows is fixed from the number of numeric columns. *)
Definition init (data : DataFrame + Series Z) : DfSummary :=
  let df :=
    match data with
    | inr s => to_frame s
    | inl d => d
    end in
  mkDfSummary df (grid_nrows (length (columns (select_dtypes_number df)))) None.

(** ** The world: standard output and the object store *)

Definition loc := positive.

Inductive obj :=
  | ODataFrame (d : DataFrame)
  | OSummary (t : Frame label).

Record World := mkWorld {
  stdout : list string;
  heap : gmap loc obj;
  rng : nat
}.

(** A Python computation: a result or an exception, and the world after. *)
Definition Py (A : Type) : Type := World -> (exn + A) * World.

Global Instance Py_ret : MRet Py := fun A x w => (inr x, w).
Global Instance Py_bind : MBind Py := fun A B f m w =>
  match m w with
  | (inl e, w') => (inl e, w')
  | (inr x, w') => f x w'
  end.

Definition py_print (line : string) : Py unit :=
  fun w => (inr tt, mkWorld (stdout w ++ [line]) (heap w) (rng w)).

Definition raise {A : Type} (e : exn) : Py A := fun w => (inl e, w).

Definition lift {A : Type} (r : exn + A) : Py A :=
  match r with
  | inl e => raise e
  | inr x => mret x
  end.

(** [try: body except KeyError: handler]. *)
Definition try_except_KeyError {A : Type} (body handler : Py A) : Py A :=
  fun w =>
    match body w with
    | (inl (KeyError _), w') => handler w'
    | r => r
    end.

(** ** The numeric engine *)

Inductive statistic :=
  | Nunique | Mean | Median | Min | Max | Std | Quantile (q : Qc) | Skew | Kurtosis.

Inductive corr_method := Pearson | Spearman | Kendall.

(** What the numeric library computes.  [reduce] is a reduction of one
    series ([Series.mean()], ...) and [reduction] a reduction of a frame
    ([DataFrame.mean()], ...): a series labelled by the columns it covers,
    or the exception of the library (as [quantile] refuses a column of
    booleans).  [corr_matrix] is the matrix of pairwise coefficients.  On a
    frame without rows every frame reduction takes the empty path of the
    library and returns a series, one value per label, labelled by the
    columns of the frame or by distinct labels. *)
Class NumericEngine := {
  reduce : statistic -> Column -> exn + cell;
  reduction : statistic -> DataFrame -> exn + Series label;
  corr_matrix : corr_method -> DataFrame -> Frame label;
  reduction_no_rows st d :
    len d = 0%nat ->
    exists s,
      reduction st d = inr s /\
      length (s_values s) = length (s_index s) /\
      (s_index s = column_names d \/ NoDup (s_index s))
}.

Section correlation.
Context {engine : NumericEngine}.

(** [df.corr(method)]: the method is compared with the three names as
    they are; any other string raises [ValueError]. *)
Definition corr (d : DataFrame) (method : string) : exn + Frame label :=
  if decide (method = "pearson") then inr (corr_matrix Pearson d)
  else if decide (method = "spearman") then inr (corr_matrix Spearman d)
  else if decide (method = "kendall") then inr (corr_matrix Kendall d)
  else inl (ValueError ("method must be either 'pearson', 'spearman', 'kendall', or a callable, '"
                          +:+ method +:+ "' was supplied")).

(** The [drop_criteria] argument: [None]; a string; a list of labels; an
    array-like whose comparison with a string is elementwise and has no
    truth value (a NumPy array of several elements; a pandas Index or
    Series is refused alike, under a message of its own); or another value, one that compares unequal to a string and to
    [None] by a plain boolean (a number, a tuple, a dict). *)
Inductive drop_criteria :=
  | DropNone
  | DropStr (s : string)
  | DropList (cols : list label)
  | DropArray
  | DropOther.

Global Instance drop_criteria_eq_dec : EqDecision drop_criteria.
Proof. solve_decision. Defined.

(** [drop_criteria == s] where a condition is expected. *)
Definition eq_str (dc : drop_criteria) (s : string) : Py bool :=
  match dc with
  | DropArray =>
      raise (ValueError "The truth value of an array with more than one element is ambiguous. Use a.any() or a.all()")
  | _ => mret (bool_decide (dc = DropStr s))
  end.

(** [shape[0]] (or [shape[1]]) of the data minus that of the subset. *)
Definition dropped (before after : nat) : pyval := PInt (Z.of_nat before - Z.of_nat after).

(** The branches of [return_heatmap_data] on [drop_criteria]: the data
    subset [corr_data], and the dictionary with the number of rows or
    columns dropped and the text for the title. *)
Definition drop_nulls (d : DataFrame) (dc : drop_criteria)
    (heatmap_data : gmap string pyval) : Py (DataFrame * gmap string pyval) :=
  any_rows ← eq_str dc "any_rows";
  if any_rows : bool then
    corr_data ← lift (dropna_rows None d);
    let heatmap_data := <["drop_count" := dropped (shape d).1 (shape corr_data).1]> heatmap_data in
    let heatmap_data := <["title_text" := PStr "rows"]> heatmap_data in
    mret (corr_data, heatmap_data)
  else
    any_cols ← eq_str dc "any_cols";
    if any_cols : bool then
      let corr_data := dropna_cols d in
      let heatmap_data := <["drop_count" := dropped (shape d).2 (shape corr_data).2]> heatmap_data in
      let heatmap_data := <["title_text" := PStr "columns"]> heatmap_data in
      mret (corr_data, heatmap_data)
    else
      match dc with
      | DropList cols =>
          try_except_KeyError
            (corr_data ← lift (dropna_rows (Some cols) d);
             let heatmap_data :=
               <["drop_count" := dropped (shape d).1 (shape corr_data).1]> heatmap_data in
             names ← lift (str_join ", " cols);
             let heatmap_data :=
               <["title_text" := PStr ("rows (subsetted on " +:+ names +:+ ") Null values")]>
                 heatmap_data in
             mret (corr_data, heatmap_data))
            (py_print "Specified column does not exist in data.  No Null values were dropped.";;
             let corr_data := copy d in
             let heatmap_data := <["drop_count" := PInt 0]> heatmap_data in
             let heatmap_data := <["title_text" := PStr "rows or columns"]> heatmap_data in
             mret (corr_data, heatmap_data))
      | _ =>
          (if decide (dc ≠ DropNone)
           then py_print "Incorrect drop criteria specified.  No Null values were dropped."
           else mret tt);;
          let corr_data := copy d in
          let heatmap_data := <["drop_count" := PInt 0]> heatmap_data in
          let heatmap_data := <["title_text" := PStr "rows or columns"]> heatmap_data in
          mret (corr_data, heatmap_data)
      end.

(** [return_heatmap_data(df, method, drop_criteria)]. *)
Definition return_heatmap_data (d : DataFrame) (method : string) (dc : drop_criteria)
  : Py (gmap string pyval) :=
  let heatmap_data : gmap string pyval := ∅ in
  '(corr_data, heatmap_data) ← drop_nulls d dc heatmap_data;
  corrs ← lift (corr corr_data method);
  mret (<["corrs" := PFrame corrs]> heatmap_data).
End correlation.

(** ** The summary table *)

Definition alloc (o : obj) : Py loc :=
  fun w =>
    let l := fresh (dom (heap w)) in
    (inr l, mkWorld (stdout w) (<[l := o]> (heap w)) (rng w)).

Definition read_data (l : loc) : Py DataFrame :=
  fun w =>
    match heap w !! l with
    | Some (ODataFrame d) => (inr d, w)
    | _ => (inl (TypeError "not a data frame"), w)
    end.

Definition read_summary (l : loc) : Py (Frame label) :=
  fun w =>
    match heap w !! l with
    | Some (OSummary t) => (inr t, w)
    | _ => (inl (TypeError "not a summary frame"), w)
    end.

Definition write_summary (l : loc) (t : Frame label) : Py unit :=
  fun w => (inr tt, mkWorld (stdout w) (<[l := OSummary t]> (heap w)) (rng w)).

(** [df_sum[name] = s] and [df_sum[name]] on the frame object at [l]. *)
Definition setitem_at (l : loc) (name : label) (s : Series label) : Py unit :=
  t ← read_summary l; t ← lift (setitem t name s); write_summary l t.

Definition getitem_at (l : loc) (name : label) : Py (Series label) :=
  t ← read_summary l; lift (getitem t name).

Section summary.
Context {engine : NumericEngine}.

(** [df_sum[name] = df.mean()] and the like: the reduction is computed,
    then assigned. *)
Definition assign_reduction (df df_sum : loc) (name : label) (st : statistic) : Py unit :=
  d ← read_data df; s ← lift (reduction st d); setitem_at df_sum name s.

(** [return_df_summary(df)], on the frame object at [df]; the result is the
    location of the new, transposed frame. *)
Definition return_df_summary (df : loc) : Py loc :=
  d ← read_data df;
  df_sum ← alloc (OSummary (mkFrame (column_names d) []));
  d ← read_data df; setitem_at df_sum "dtype" (dtypes d);;
  d ← read_data df; setitem_at df_sum "null_count" (isnull_sum d);;
  null_count ← getitem_at df_sum "null_count";
  d ← read_data df;
  setitem_at df_sum "null_percent"
    (series_map (cell_round 2) float64
       (series_map (cell_mul 100) float64
          (series_map (cell_truediv (Z.of_nat (len d))) float64 null_count)));;
  assign_reduction df df_sum "unique_vals" Nunique;;
  assign_reduction df df_sum "mean" Mean;;
  assign_reduction df df_sum "min" Min;;
  assign_reduction df df_sum "max" Max;;
  assign_reduction df df_sum "std" Std;;
  assign_reduction df df_sum "25%" (Quantile (Q2Qc (1 # 4)));;
  assign_reduction df df_sum "median" (Quantile (Q2Qc (1 # 2)));;
  assign_reduction df df_sum "75%" (Quantile (Q2Qc (3 # 4)));;
  assign_reduction df df_sum "skewness" Skew;;
  assign_reduction df df_sum "kurtosis" Kurtosis;;
  t ← read_summary df_sum;
  alloc (OSummary (T t)).
End summary.

(** ** The correlation heatmap *)

Record HeatmapFigure := mkHeatmap {
  hm_data : Frame label;
  hm_mask : list (list bool);
  hm_vmin : Z;
  hm_vmax : Z;
  hm_title : string
}.

(** The mask of the upper triangle, diagonal included. *)
Definition triu_mask (n m : nat) : list (list bool) :=
  map (fun i => map (fun j => (i <=? j)%nat) (seq 0 m)) (seq 0 n).

(** How a dictionary value prints inside an f-string. *)
Definition py_str (v : pyval) : string :=
  match v with
  | PInt z => pretty z
  | PStr s => s
  | PFrame _ => "DataFrame"
  end.

Definition dict_getitem (d : gmap string pyval) (k : string) : Py pyval :=
  match d !! k with
  | Some v => mret v
  | None => raise (KeyError [LStr k])
  end.

Section heatmap.
Context {engine : NumericEngine}.

(** [DfSummary.return_heatmap(method, drop_criteria)]: the figure, if one
    is drawn, and the object with its [heatmap_data] attribute. *)
Definition return_heatmap (self : DfSummary) (method : string) (dc : drop_criteria)
  : Py (option HeatmapFigure * DfSummary) :=
  let d := select_dtypes_number (df self) in
  if ((shape d).2 <? 2)%nat
     || negb (bool_decide (lower method ∈ ["pearson"; "spearman"; "kendall"]))
  then
    py_print "Invalid data or correlation method provided for heatmap to be generated.";;
    mret (None, self)
  else
    data ← return_heatmap_data d method dc;
    let self := mkDfSummary (df self) (nrows self) (Some data) in
    corrs ← dict_getitem data "corrs";
    match corrs with
    | PFrame corrs =>
        if (notnull_total corrs =? 0)%nat then
          py_print "There is no data left for calcualting pair-wise correlations.";;
          mret (None, self)
        else
          drop_count ← dict_getitem data "drop_count";
          title_text ← dict_getitem data "title_text";
          let title :=
            "Heatmap of " +:+ capitalize method
              +:+ " correlation between numeric fields with "
              +:+ py_str drop_count +:+ " " +:+ py_str title_text +:+ " dropped" in
          mret (Some (mkHeatmap corrs
                                (triu_mask (length (index corrs)) (length (columns corrs)))
                                (-1) 1 title),
                self)
    | _ => raise (AttributeError "notnull")
    end.
End heatmap.

(** ** The boxplot grid *)

(** The generator behind [Series.sample(k)], called without weights and
    without replacement: from a state, [k] distinct positions below [n] (for
    the library every such draw is as likely as any other), and the next
    state. *)
Class RandomSource := {
  choice : nat -> nat -> nat -> list nat * nat;
  choice_length s n k : (k <= n)%nat -> length (choice s n k).1 = k;
  choice_NoDup s n k : NoDup (choice s n k).1;
  choice_bound s n k i : i ∈ (choice s n k).1 -> (i < n)%nat
}.

(** The drawing calls that are handed the data of a column: [ax.hist],
    [sns.boxplot] and [sns.swarmplot] return, or raise the exception of the
    library (as [ax.hist] does on a range that is not finite). *)
Class Plotter := {
  ax_hist : list cell -> exn + unit;
  sns_boxplot : list cell -> exn + unit;
  sns_swarmplot : list cell -> exn + unit
}.

Inductive Subplot :=
  | AxisOff
  | BoxPlot (title : string) (data : list cell) (swarm : option (list cell)).

Record Figure := mkFigure {
  fig_axes : gmap (nat * nat) Subplot;
  fig_suptitle : string
}.

Global Instance Column_inhabited : Inhabited Column := populate (mkColumn "" object_ []).

Definition newline : string := String (ascii_of_nat 10) EmptyString.

(** [for x in l: body], the loop variables threaded as [s]. *)
Fixpoint for_each {A S : Type} (l : list A) (body : S -> A -> Py S) (s : S) : Py S :=
  match l with
  | [] => mret s
  | x :: l' => s' ← body s x; for_each l' body s'
  end.

Definition range (n : Z) : list nat := seq 0 (Z.to_nat n).

(** [axes[i][j]] on the result of [plt.subplots(nrows, ncols)]: the array
    of axes has two dimensions only when both counts exceed one. *)
Definition axes_item (nrows ncols : Z) : Py unit :=
  if (1 <? nrows) && (1 <? ncols) then mret tt
  else raise (TypeError "'AxesSubplot' object is not subscriptable").

Definition swarm_warning (name : label) (points : nat) : string :=
  "There are " +:+ pretty points +:+ " non-null data points in the '" +:+ label_str name
    +:+ "' field.  2000 random points (only) will be plotted in the swarmplot.".

(** The non-null cells of a column. *)
Definition non_null (c : Column) : list cell :=
  filter (fun x => notnull x = true) (c_values c).

(** [df.loc[df[name].notnull(), name]]: the column of that label without
    its null cells. *)
Definition loc_notnull (d : DataFrame) (name : label) : exn + Column :=
  match loc_column d name with
  | inr c => inr (mkColumn (c_name c) (c_dtype c) (non_null c))
  | inl e => inl e
  end.

(** [df[name].isnull().sum()] for the title of a subplot. *)
Definition null_count (d : DataFrame) (name : label) : exn + nat :=
  match loc_column d name with
  | inr c => inr (count_null c)
  | inl e => inl e
  end.

Section boxplots.
Context {random : RandomSource} {plotter : Plotter}.

(** [s.sample(k)]: the cells at [k] positions drawn without replacement. *)
Definition sample (k : nat) (xs : list cell) : Py (list cell) :=
  fun w =>
    if (k <=? length xs)%nat then
      let '(locs, state) := choice (rng w) (length xs) k in
      (inr (map (fun i => xs !!! i) locs), mkWorld (stdout w) (heap w) state)
    else
      (inl (ValueError "Cannot take a larger sample than population when 'replace=False'"), w).

(** What one cell of the grid shows: the column whose label is at position
    [counter], if there is one. *)
Definition boxplot_cell (d : DataFrame) (swarmplot : bool) (counter : nat) : Py Subplot :=
  if (counter <? length (column_names d))%nat then
    let name := column_names d !!! counter in
    col_no_null ← lift (loc_notnull d name);
    let points := c_values col_no_null in
    lift (sns_boxplot points);;
    swarm ←
      (if swarmplot && (length points <=? 2000)%nat then
         lift (sns_swarmplot points);;
         mret (Some points)
       else if swarmplot && (2000 <? length points)%nat then
         py_print (swarm_warning name (length points));;
         drawn ← sample 2000 points;
         lift (sns_swarmplot drawn);;
         mret (Some drawn)
       else mret None);
    nulls ← lift (null_count d name);
    mret (BoxPlot (label_str name +:+ ": " +:+ newline +:+ "(" +:+ pretty nulls
                     +:+ " NaN values dropped)")
                  points swarm)
  else mret AxisOff.

(** [DfSummary.return_boxplots(swarmplot)]. *)
Definition return_boxplots (self : DfSummary) (swarmplot : bool) : Py Figure :=
  let axes : gmap (nat * nat) Subplot := ∅ in
  let counter := 0%nat in
  let d := select_dtypes_number (df self) in
  '(counter, axes) ←
    for_each (range (nrows self))
      (fun st i =>
         for_each (range ncols)
           (fun '(counter, axes) j =>
              axes_item (nrows self) ncols;;
              ax ← boxplot_cell d swarmplot counter;
              mret (S counter, <[(i, j) := ax]> axes))
           st)
      (counter, axes);
  let plot_type := if swarmplot then "Swarmplots" else "Boxplots" in
  mret (mkFigure axes (plot_type +:+ " of numeric data fields")).
End boxplots.

(** ** The histogram grid *)

(** What is drawn on one axes of the histogram figure: nothing, or a
    histogram with its colour (an index into the colour map), its data and
    its vertical lines, each with its legend label. *)
Inductive HistSubplot :=
  | HistOff
  | Hist (title : string) (color : nat) (data : list cell) (vlines : list (string * cell)).

Record HistFigure := mkHistFigure {
  hist_axes : gmap (nat * nat) HistSubplot;
  hist_suptitle : string
}.

Section histograms.
Context {engine : NumericEngine} {plotter : Plotter}.

(** What one cell of the histogram grid shows. *)
Definition hist_cell (d : DataFrame) (counter : nat) : Py HistSubplot :=
  if (counter <? length (column_names d))%nat then
    let name := column_names d !!! counter in
    col_no_null ← lift (loc_notnull d name);
    lift (ax_hist (c_values col_no_null));;
    mean ← lift (reduce Mean col_no_null);
    median ← lift (reduce Median col_no_null);
    q25 ← lift (reduce (Quantile (Q2Qc (1 # 4))) col_no_null);
    q75 ← lift (reduce (Quantile (Q2Qc (3 # 4))) col_no_null);
    nulls ← lift (null_count d name);
    mret (Hist (label_str name +:+ ": " +:+ newline +:+ "(" +:+ pretty nulls
                  +:+ " NaN values dropped)")
               (counter mod 10)
               (c_values col_no_null)
               [("Mean", mean); ("Median", median);
                ("25th percentile", q25); ("75th percentile", q75)])
  else mret HistOff.

(** [DfSummary.return_histograms()]. *)
Definition return_histograms (self : DfSummary) : Py HistFigure :=
  let axes : gmap (nat * nat) HistSubplot := ∅ in
  let counter := 0%nat in
  let d := select_dtypes_number (df self) in
  '(counter, axes) ←
    for_each (range (nrows self))
      (fun st i =>
         for_each (range ncols)
           (fun '(counter, axes) j =>
              axes_item (nrows self) ncols;;
              ax ← hist_cell d counter;
              mret (S counter, <[(i, j) := ax]> axes))
           st)
      (counter, axes);
  mret (mkHistFigure axes "Histograms of numeric data fields").
End histograms.

(** ** Vocabulary of the properties *)

(** A computation keeps a property of the world, whether it returns or
    raises. *)
Definition keeps {A : Type} (P : World -> Prop) (m : Py A) : Prop :=
  forall w, P w -> P (m w).2.

(** The title of the subplot of a column, in both grids. *)
Definition subplot_title (c : Column) : string :=
  label_str (c_name c) +:+ ": " +:+ newline +:+ "(" +:+ pretty (count_null c)
    +:+ " NaN values dropped)".

(** Cell [(i, j)] of a grid walked up to [counter]: drawn when it comes
    before the counter in row-major order, three cells per row. *)
Definition walked (counter i j : nat) : Prop := (j < 3 /\ 3 * i + j < counter)%nat.

(** The axes of a grid walked up to [counter]: the cells walked, and only
    they, are drawn, and what is drawn in the cell of position [k] is
    [good k]. *)
Definition grid_drawn {X : Type} (good : nat -> X -> Prop) (counter : nat)
    (axes : gmap (nat * nat) X) : Prop :=
  forall i j,
    (is_Some (axes !! (i, j)) <-> walked counter i j) /\
    (forall ax, axes !! (i, j) = Some ax -> good (3 * i + j)%nat ax).

(** The dictionary of [return_heatmap_data] before ["corrs"] is added: both
    keys are set and the count is not negative. *)
Definition prepared (data : gmap string pyval) : Prop :=
  exists (count : Z) (text : string),
    0 <= count /\
    data = <["title_text" := PStr text]> (<["drop_count" := PInt count]> ∅).

(** The values of [drop_criteria] on which the drop of
    [return_heatmap_data] is defined: not an array-like, and a list only
    when it names a column the frame lacks or holds strings only. *)
Definition criteria_accepted (d : DataFrame) (dc : drop_criteria) : Prop :=
  match dc with
  | DropArray => False
  | DropList cols =>
      (exists c, c ∈ cols /\ c ∉ column_names d) \/ (exists names : list string, cols = LStr <$> names)
  | _ => True
  end.

(** The reductions of [return_df_summary], in the order they are called. *)
Definition summary_statistics : list statistic :=
  [Nunique; Mean; Min; Max; Std; Quantile (Q2Qc (1 # 4)); Quantile (Q2Qc (1 # 2));
   Quantile (Q2Qc (3 # 4)); Skew; Kurtosis].

Definition statistic_names : list label :=
  LStr <$> ["dtype"; "null_count"; "null_percent"; "unique_vals"; "mean"; "min"; "max";
            "std"; "25%"; "median"; "75%"; "skewness"; "kurtosis"].

(** A series that column assignment accepts on a frame indexed by the
    columns of [d]: it has one value per label, and it carries the labels
    of the frame, or its labels are distinct. *)
Definition assignable (d : DataFrame) (s : Series label) : Prop :=
  length (s_values s) = length (s_index s) /\
  (s_index s = column_names d \/ (column_names d <> [] /\ NoDup (s_index s))).

(** Every reduction of [return_df_summary] returns on [d], with a series
    that can be assigned. *)
Definition summarizable {engine : NumericEngine} (d : DataFrame) : Prop :=
  forall st, st ∈ summary_statistics ->
    exists s, reduction st d = inr s /\ assignable d s.

(** The values a series gives to the given labels, as column assignment
    takes them. *)
Definition aligned (labels : list label) (s : Series label) : list cell :=
  if decide (s_index s = labels) then s_values s
  else map (series_lookup (s_index s) (s_values s)) labels.

(** The column that the reduction [st] of [d] becomes in [df_sum]. *)
Definition stat_column {engine : NumericEngine} (d : DataFrame) (name : label)
    (st : statistic) : Column :=
  mkColumn name
    (match reduction st d with inr s => s_dtype s | inl _ => object_ end)
    (match reduction st d with inr s => aligned (column_names d) s | inl _ => [] end).


(** The frame [df_sum] of [return_df_summary] once its thirteen columns are
    assigned, before it is transposed. *)
Definition summary_frame {engine : NumericEngine} (d : DataFrame) : Frame label :=
  mkFrame (column_names d)
    [mkColumn "dtype" object_ (s_values (dtypes d));
     mkColumn "null_count" int64 (s_values (isnull_sum d));
     mkColumn "null_percent" float64
       (map (cell_round 2)
          (map (cell_mul 100)
             (map (cell_truediv (Z.of_nat (len d))) (s_values (isnull_sum d)))));
     stat_column d "unique_vals" Nunique;
     stat_column d "mean" Mean;
     stat_column d "min" Min;
     stat_column d "max" Max;
     stat_column d "std" Std;
     stat_column d "25%" (Quantile (Q2Qc (1 # 4)));
     stat_column d "median" (Quantile (Q2Qc (1 # 2)));
     stat_column d "75%" (Quantile (Q2Qc (3 # 4)));
     stat_column d "skewness" Skew;
     stat_column d "kurtosis" Kurtosis].

(** The warnings of the swarm overlay for the given columns, in order: one
    for each column with more than 2000 non-null values. *)
Definition swarm_warnings (cols : list Column) : list string :=
  omap (fun c => if (2000 <? length (non_null c))%nat
                 then Some (swarm_warning (c_name c) (length (non_null c)))
                 else None) cols.

(** The drawing calls of the boxplot grid return on the values of a column
    and on every selection of them. *)
Definition box_drawable {plotter : Plotter} (c : Column) : Prop :=
  sns_boxplot (non_null c) = inr tt /\
  forall points, points ⊆+ non_null c -> sns_swarmplot points = inr tt.

(** What the swarm overlay of a column must be, given the lines printed. *)
Definition swarm_ok {random : RandomSource} (c : Column) (swarm : list cell)
    (out : list string) : Prop :=
  ((length (non_null c) <= 2000)%nat -> swarm = non_null c) /\
  ((2000 < length (non_null c))%nat ->
     length swarm = 2000%nat /\ swarm ⊆+ non_null c /\
     (exists state,
        swarm = map (fun i => non_null c !!! i)
                    (choice state (length (non_null c)) 2000).1) /\
     swarm_warning (c_name c) (length (non_null c)) ∈ out).

(** What the boxplot grid shows at position [k]: the boxplot of column [k],
    with an overlay of at most 2000 of its values exactly when the swarm is
    requested, or nothing beyond the last column. *)
Definition box_good {random : RandomSource} (d : DataFrame) (swarmplot : bool)
    (out : list string) (k : nat) (ax : Subplot) : Prop :=
  match columns d !! k with
  | Some c =>
      exists swarm,
        ax = BoxPlot (subplot_title c) (non_null c) swarm /\
        if swarmplot
        then exists points, swarm = Some points /\ swarm_ok c points out
        else swarm = None
  | None => ax = AxisOff
  end.

(** The drawing call and the reductions of the histogram of a column
    return. *)
Definition hist_drawable {engine : NumericEngine} {plotter : Plotter} (c : Column) : Prop :=
  ax_hist (non_null c) = inr tt /\
  forall st, st ∈ [Mean; Median; Quantile (Q2Qc (1 # 4)); Quantile (Q2Qc (3 # 4))] ->
    exists v, reduce st (mkColumn (c_name c) (c_dtype c) (non_null c)) = inr v.

(** What the histogram grid shows at position [k]: the histogram of column
    [k], or nothing beyond the last column. *)
Definition hist_good {engine : NumericEngine} (d : DataFrame) (k : nat)
    (ax : HistSubplot) : Prop :=
  match columns d !! k with
  | Some c =>
      let col_no_null := mkColumn (c_name c) (c_dtype c) (non_null c) in
      exists mean median q25 q75,
        reduce Mean col_no_null = inr mean /\
        reduce Median col_no_null = inr median /\
        reduce (Quantile (Q2Qc (1 # 4))) col_no_null = inr q25 /\
        reduce (Quantile (Q2Qc (3 # 4))) col_no_null = inr q75 /\
        ax = Hist (subplot_title c) (k mod 10) (non_null c)
                  [("Mean", mean); ("Median", median);
                   ("25th percentile", q25); ("75th percentile", q75)]
  | None => ax = HistOff
  end.

(** ** Sample collaborators and data *)

(** A generator that always draws the first positions. *)
Definition first_positions : RandomSource.
Proof.
  refine {| choice := fun s n k => (seq 0 (Nat.min k n), s) |}.
  - intros s n k Hk. simpl. rewrite length_seq. lia.
  - intros s n k. simpl. apply NoDup_seq.
  - intros s n k i. simpl. rewrite elem_of_seq. lia.
Defined.

(** A plotting library that draws whatever it is given. *)
Definition quiet_plotter : Plotter :=
  {| ax_hist := fun _ => inr tt; sns_boxplot := fun _ => inr tt; sns_swarmplot := fun _ => inr tt |}.

Definition identity_matrix (d : DataFrame) : Frame label :=
  mkFrame (column_names d)
          (map (fun c =>
                  mkColumn (c_name c) float64
                           (map (fun c' => if decide (c_name c' = c_name c)
                                           then Some (SFloat 1%Qc) else Some (SFloat 0%Qc))
                                (columns d)))
               (columns d)).

(** A null for every column of a frame. *)
Definition nan_series (d : DataFrame) : Series label :=
  mkSeries None (column_names d) float64 (map (fun _ => None) (columns d)).

(** An engine that reports no statistic and the identity matrix. *)
Definition identity_engine : NumericEngine.
Proof.
  refine {| reduce := fun _ _ => inr None;
            reduction := fun _ d => inr (nan_series d);
            corr_matrix := fun _ d => identity_matrix d |}.
  intros st d _. exists (nan_series d). split; [reflexivity |].
  split; [| by left]. unfold nan_series, column_names. simpl. by rewrite !length_map.
Defined.

(** A null for every numeric column of a frame. *)
Definition numeric_series (d : DataFrame) : Series label :=
  let cols := filter (fun c => is_number (c_dtype c) = true) (columns d) in
  mkSeries None (map c_name cols) float64 (map (fun _ => None) cols).

Definition has_bool (d : DataFrame) : bool :=
  existsb (fun c => bool_decide (c_dtype c = bool_)) (columns d).

(** An engine that, on a frame with rows, counts the distinct values of
    every column, reduces the numeric columns only, and refuses the
    quantile of a frame with a column of booleans. *)
Definition numeric_only_engine : NumericEngine.
Proof.
  refine {| reduce := fun _ _ => inr None;
            reduction := fun st d =>
              if decide (len d = 0%nat) then inr (nan_series d)
              else match st with
                   | Nunique => inr (nan_series d)
                   | Quantile _ =>
                       if has_bool d
                       then inl (TypeError "numpy boolean subtract, the `-` operator, is not supported, use the bitwise_xor, the `^` operator, or the logical_xor function instead.")
                       else inr (numeric_series d)
                   | _ => inr (numeric_series d)
                   end;
            corr_matrix := fun _ d => identity_matrix d |}.
  intros st d Hd. exists (nan_series d). rewrite decide_True by done.
  split; [reflexivity |].
  split; [| by left]. unfold nan_series, column_names. simpl. by rewrite !length_map.
Defined.

Definition ints (l : list Z) : list cell := map (fun z => Some (SInt z)) l.
Definition floats (l : list (option Z)) : list cell :=
  map (fun o => z ← o; Some (SFloat (Qc_of_Z z))) l.

(** A = [1, 2, 3, NaN], B = [4, 5, 6, 7]. *)
Definition df_AB : DataFrame :=
  mkFrame [0; 1; 2; 3]
          [mkColumn "A" float64 (floats [Some 1; Some 2; Some 3; None]);
           mkColumn "B" int64 (ints [4; 5; 6; 7])].

(** One column of text and no numeric column. *)
Definition df_text : DataFrame :=
  mkFrame [0; 1] [mkColumn "name" object_ [Some (SStr "x"); Some (SStr "y")]].

(** One numeric column of 2001 values, none null. *)
Definition df_2001 : DataFrame :=
  mkFrame (seqZ 0 2001) [mkColumn "x" int64 (repeat (Some (SInt 7)) 2001)].


(** One column of 160 cells, 23 of them null. *)
Definition df_160 : DataFrame :=
  mkFrame (seqZ 0 160)
          [mkColumn "x" float64 (repeat None 23 ++ repeat (Some (SFloat (Qc_of_Z 1))) 137)].

(** One column of booleans. *)
Definition df_flags : DataFrame :=
  mkFrame [0; 1] [mkColumn "flag" bool_ [Some (SBool true); Some (SBool false)]].

(** Two numeric columns under the same label, and a column of text. *)
Definition df_twins : DataFrame :=
  mkFrame [0; 1]
          [mkColumn "x" int64 (ints [1; 2]); mkColumn "x" int64 (ints [3; 4]);
           mkColumn "note" object_ [Some (SStr "a"); Some (SStr "b")]].

(** Two numeric columns labelled by the integers 0 and 1. *)
Definition df_01 : DataFrame :=
  mkFrame [0; 1]
          [mkColumn (LInt 0) int64 (ints [1; 2]); mkColumn (LInt 1) int64 (ints [3; 4])].

(** A numeric series named "s". *)
Definition series_s : Series Z :=
  mkSeries (Some (LStr "s")) [0; 1; 2] int64 (ints [1; 2; 3]).

Definition world0 : World := mkWorld [] ∅ 0%nat.

(** A world whose store holds the given frame at location 1. *)
Definition world_of (d : DataFrame) : World :=
  mkWorld [] {[1%positive := ODataFrame d]} 0%nat.


(** A world whose store holds [df_AB] at location 1. *)
Definition world_AB : World := mkWorld [] {[1%positive := ODataFrame df_AB]} 0%nat.

(** * Properties *)

(** ** Float64 rounding *)

(** Rounding to the nearest integer moves a number by one half at most. *)
Lemma rint_spec (q : Q) :
  (inject_Z (rint q) - (1 # 2) <= q /\ q <= inject_Z (rint q) + (1 # 2))%Q.
Proof.
  unfold rint.
  pose proof (Qfloor_le q) as Hlo. pose proof (Qlt_floor q) as Hhi.
  rewrite inject_Z_plus in Hhi. change (inject_Z 1) with 1%Q in Hhi.
  destruct (q - inject_Z (Qfloor q) ?= 1 # 2)%Q eqn:Hc.
  - apply Qeq_alt in Hc.
    destruct (Z.even (Qfloor q)); [| rewrite inject_Z_plus; change (inject_Z 1) with 1%Q]; lra.
  - apply Qlt_alt in Hc. lra.
  - apply Qgt_alt in Hc. rewrite inject_Z_plus. change (inject_Z 1) with 1%Q. lra.
Qed.

Lemma rint_nonneg (q : Q) : (0 <= q)%Q -> 0 <= rint q.
Proof.
  intros Hq. unfold rint.
  assert (0 <= Qfloor q) as Hf.
  { change 0 with (Qfloor 0). by apply Qfloor_resp_le. }
  destruct (q - inject_Z (Qfloor q) ?= 1 # 2)%Q; [destruct (Z.even (Qfloor q)) | |]; lia.
Qed.

(** A quotient of integers grows with its numerator and shrinks with its
    denominator. *)
Lemma Qdiv_le_cross (A B a b : Z) :
  0 < A <= a -> 0 < b <= B ->
  (inject_Z A / inject_Z B <= inject_Z a / inject_Z b)%Q.
Proof.
  intros HA HB.
  assert (0 < inject_Z B)%Q as HB0 by (rewrite <- (Zlt_Qlt 0); lia).
  assert (0 < inject_Z b)%Q as Hb0 by (rewrite <- (Zlt_Qlt 0); lia).
  apply Qle_shift_div_r; [exact HB0 |].
  assert (inject_Z a / inject_Z b * inject_Z B == inject_Z a * inject_Z B / inject_Z b)%Q
    as -> by (field; lra).
  apply Qle_shift_div_l; [exact Hb0 |].
  rewrite <- !inject_Z_mult, <- Zle_Qle. nia.
Qed.

(** The exponent [f64] finds is at most that of the leading bit. *)
Lemma f64_exponent (q : Q) :
  (0 < q)%Q ->
  let E := Z.log2 (Z.abs (Qnum q)) - Z.log2 (Zpos (Qden q)) in
  let exp := if Qle_bool (2 ^ E) (Qabs q) then E else E - 1 in
  (2 ^ exp <= q)%Q.
Proof.
  intros Hq E exp. subst exp.
  rewrite (Qabs_pos q) by lra.
  destruct (Qle_bool (2 ^ E) q) eqn:Ht; [by apply Qle_bool_iff |].
  destruct q as [a b]. cbn [Qnum Qden] in *.
  assert (0 < a) as Ha by (unfold Qlt in Hq; simpl in Hq; lia).
  pose proof (Z.log2_spec a Ha) as [Hla _].
  pose proof (Z.log2_spec (Zpos b) ltac:(lia)) as [_ Hlb].
  pose proof (Z.log2_nonneg a) as Hla0. pose proof (Z.log2_nonneg (Zpos b)) as Hlb0.
  assert (E - 1 = Z.log2 a - Z.succ (Z.log2 (Zpos b))) as ->.
  { unfold E. rewrite Z.abs_eq by lia. lia. }
  rewrite Qpower_minus by lra.
  change 2%Q with (inject_Z 2).
  rewrite <- !Zpower_Qpower by lia.
  rewrite (Qmake_Qdiv a b).
  apply Qdiv_le_cross; lia.
Qed.

(** Rounding to float64 moves a number by one part in 2^53 at most. *)
Lemma f64_bounds (q : Q) :
  (0 <= q)%Q ->
  (q * (1 - (1 # 2 ^ 53)) <= f64 q /\ f64 q <= q * (1 + (1 # 2 ^ 53)))%Q.
Proof.
  intros Hq. unfold f64.
  change (1 # 2 ^ 53)%Q with (1 # 9007199254740992)%Q.
  destruct (Qeq_bool q 0) eqn:Hz.
  { apply Qeq_bool_eq in Hz. lra. }
  apply Qeq_bool_neq in Hz.
  assert (0 < q)%Q as Hpos by lra.
  pose proof (f64_exponent q Hpos) as Hexp. cbv zeta in Hexp.
  set (exp := if Qle_bool _ _ then _ else _) in *.
  assert (0 < 2 ^ exp)%Q as Hp by (apply Qpower_0_lt; lra).
  set (p := (2 ^ exp)%Q) in *.
  assert (Z.sgn (Qnum q) = 1) as ->.
  { apply Z.sgn_pos. destruct q as [a b]. unfold Qlt in Hpos. simpl in *. lia. }
  assert (Qabs q = q) as ->.
  { destruct q as [a b]. unfold Qlt in Hpos. simpl in *. f_equal. lia. }
  rewrite Z.mul_1_l.
  change (2 ^ 52)%Q with (4503599627370496 # 1)%Q.
  set (ulp := (p / (4503599627370496 # 1))%Q).
  assert (ulp * (4503599627370496 # 1) == p)%Q as Hulp by (unfold ulp; field).
  assert (0 < ulp)%Q as Hulp0.
  { unfold ulp. apply Qlt_shift_div_l; lra. }
  pose proof (rint_spec (q / ulp)) as [Hlo Hhi].
  set (m := inject_Z (rint (q / ulp))) in *.
  assert (q / ulp * ulp == q)%Q as Hs by (field; lra).
  apply (Qmult_le_compat_r _ _ ulp) in Hlo; [| lra].
  apply (Qmult_le_compat_r _ _ ulp) in Hhi; [| lra].
  rewrite Hs in Hlo, Hhi.
  set (x := (m * ulp)%Q) in *.
  assert ((m - (1 # 2)) * ulp == x - (1 # 2) * ulp)%Q as H1 by (unfold x; ring).
  assert ((m + (1 # 2)) * ulp == x + (1 # 2) * ulp)%Q as H2 by (unfold x; ring).
  rewrite H1 in Hlo. rewrite H2 in Hhi.
  lra.
Qed.

(** A float64 is not changed by rounding it again into a canonical
    rational. *)
Lemma Q2Qc_eq (q : Q) : (Q2Qc q == q)%Q.
Proof. apply Qred_correct. Qed.

(** A float64 operation on a value within [a] of [X], relatively, gives a
    result within [a + 5/4 * 2^-53] of [X]. *)
Lemma float_near (x X a : Q) :
  (0 <= X)%Q -> (0 <= a <= 1 # 4)%Q ->
  (X * (1 - a) <= x <= X * (1 + a))%Q ->
  (X * (1 - (a + (5 # 4) * (1 # 2 ^ 53))) <= Q2Qc (f64 x)
   /\ Q2Qc (f64 x) <= X * (1 + (a + (5 # 4) * (1 # 2 ^ 53))))%Q.
Proof.
  intros HX Ha [Hlo Hhi].
  assert (0 <= x)%Q as Hx by nra.
  pose proof (f64_bounds x Hx) as [Hflo Hfhi].
  rewrite Q2Qc_eq.
  change (1 # 2 ^ 53)%Q with (1 # 9007199254740992)%Q in *.
  split; nra.
Qed.

(** The quotient of two values, each within 5/4 * 2^-53 of its target. *)
Lemma quotient_near (x X y Y : Q) :
  (0 <= X)%Q -> (0 < Y)%Q ->
  (X * (1 - (5 # 4) * (1 # 2 ^ 53)) <= x <= X * (1 + (5 # 4) * (1 # 2 ^ 53)))%Q ->
  (Y * (1 - (5 # 4) * (1 # 2 ^ 53)) <= y <= Y * (1 + (5 # 4) * (1 # 2 ^ 53)))%Q ->
  (X / Y * (1 - (3 # 1) * (1 # 2 ^ 53)) <= x / y <= X / Y * (1 + (3 # 1) * (1 # 2 ^ 53)))%Q.
Proof.
  change (1 # 2 ^ 53)%Q with (1 # 9007199254740992)%Q.
  intros HX HY [Hxlo Hxhi] [Hylo Hyhi].
  assert (0 < y)%Q as Hy by nra.
  assert (0 <= X / Y)%Q as HR by (apply Qle_shift_div_l; lra).
  assert (X / Y * Y == X)%Q as HRY by (field; lra).
  set (R := (X / Y)%Q) in *.
  split.
  - apply Qle_shift_div_l; [exact Hy |]. nra.
  - apply Qle_shift_div_r; [exact Hy |]. nra.
Qed.

Lemma float_of_int_100 : (float_of_int 100 == 100)%Q.
Proof. reflexivity. Qed.

(** The entry [round(count / rows * 100, 2)] as float64 arithmetic computes
    it: the float64 nearest to [k / 100] for an integer [k] that is the
    exact value of [10000 * count / rows] rounded to the nearest integer, up
    to the rounding errors of the quotient and the two products. *)
Lemma null_percent_cell (z n : Z) :
  0 <= z -> 0 < n ->
  let exact := (inject_Z (10000 * z) / inject_Z n)%Q in
  exists (k : Z) (q : Qc),
    cell_round 2 (cell_mul 100 (cell_truediv n (Some (SInt z)))) = Some (SFloat q) /\
    0 <= k /\
    ((k # 100) * (1 - (1 # 2 ^ 50)) <= q /\ q <= (k # 100) * (1 + (1 # 2 ^ 50)))%Q /\
    (exact * (1 - (1 # 2 ^ 50)) - (1 # 2) <= inject_Z k
     /\ inject_Z k <= exact * (1 + (1 # 2 ^ 50)) + (1 # 2))%Q /\
    (z <= n -> n < 2 ^ 35 ->
     (exact - (1 # 2) <= inject_Z k /\ inject_Z k <= exact + (1 # 2))%Q).
Proof.
  intros Hz Hn exact.
  unfold cell_truediv. rewrite (proj2 (Z.eqb_neq n 0)) by lia.
  unfold cell_mul, cell_round, round_ndigits.
  change (10 ^ Z.of_nat 2) with 100.
  set (a1 := float_of_int z). set (n1 := float_of_int n).
  set (d1 := float_truediv a1 n1). set (h := float_of_int 100).
  set (d2 := float_mul d1 h). set (y := float_mul d2 h).
  set (k := rint y). set (res := float_truediv (float_of_int k) h).
  exists k, res. split; [reflexivity |].
  change (1 # 2 ^ 50)%Q with (1 # 1125899906842624)%Q.
  assert (0 < inject_Z n)%Q as HN by (rewrite <- (Zlt_Qlt 0); lia).
  assert (0 <= inject_Z z)%Q as HZ by (rewrite <- (Zle_Qle 0); lia).
  assert (h == 100)%Q as Hh by reflexivity.
  (* the conversions *)
  pose proof (float_near (inject_Z z) (inject_Z z) 0 HZ ltac:(try split; lra) ltac:(try split; lra)) as Ha1.
  pose proof (float_near (inject_Z n) (inject_Z n) 0 ltac:(try split; lra) ltac:(try split; lra) ltac:(try split; lra)) as Hn1.
  fold (float_of_int z) in Ha1. fold a1 in Ha1.
  fold (float_of_int n) in Hn1. fold n1 in Hn1.
  (* the quotient *)
  assert (0 <= inject_Z z / inject_Z n)%Q as HX1 by (apply Qle_shift_div_l; lra).
  set (X1 := (inject_Z z / inject_Z n)%Q) in *.
  assert (X1 * inject_Z n == inject_Z z)%Q as HX1n by (unfold X1; field; lra).
  pose proof (quotient_near a1 (inject_Z z) n1 (inject_Z n) HZ HN
                ltac:(change (1 # 2 ^ 53)%Q with (1 # 9007199254740992)%Q in *; split; lra)
                ltac:(change (1 # 2 ^ 53)%Q with (1 # 9007199254740992)%Q in *; split; lra)) as Hquot.
  fold X1 in Hquot.
  change (1 # 2 ^ 53)%Q with (1 # 9007199254740992)%Q in *.
  pose proof (float_near (a1 / n1) X1 ((3 # 1) * (1 # 9007199254740992)) HX1
                ltac:(try split; lra) Hquot) as Hd1.
  fold (float_truediv a1 n1) in Hd1. fold d1 in Hd1.
  change (1 # 2 ^ 53)%Q with (1 # 9007199254740992)%Q in *.
  (* times 100, twice *)
  assert (X1 * 100 * (1 - ((3 # 1) * (1 # 9007199254740992) + (5 # 4) * (1 # 9007199254740992)))
          <= d1 * h
          /\ d1 * h <= X1 * 100 * (1 + ((3 # 1) * (1 # 9007199254740992)
                                          + (5 # 4) * (1 # 9007199254740992))))%Q as Hm1.
  { rewrite Hh. split; lra. }
  pose proof (float_near (d1 * h) (X1 * 100)
                ((3 # 1) * (1 # 9007199254740992) + (5 # 4) * (1 # 9007199254740992))
                ltac:(try split; lra) ltac:(try split; lra) Hm1) as Hd2.
  fold (float_mul d1 h) in Hd2. fold d2 in Hd2.
  change (1 # 2 ^ 53)%Q with (1 # 9007199254740992)%Q in *.
  assert (X1 * 100 * 100
            * (1 - ((3 # 1) * (1 # 9007199254740992) + (5 # 4) * (1 # 9007199254740992)
                    + (5 # 4) * (1 # 9007199254740992)))
          <= d2 * h
          /\ d2 * h <= X1 * 100 * 100
                        * (1 + ((3 # 1) * (1 # 9007199254740992)
                                + (5 # 4) * (1 # 9007199254740992)
                                + (5 # 4) * (1 # 9007199254740992))))%Q as Hm2.
  { rewrite Hh. split; lra. }
  pose proof (float_near (d2 * h) (X1 * 100 * 100)
                ((3 # 1) * (1 # 9007199254740992) + (5 # 4) * (1 # 9007199254740992) + (5 # 4) * (1 # 9007199254740992))
                ltac:(try split; lra) ltac:(try split; lra) Hm2) as Hy.
  fold (float_mul d2 h) in Hy. fold y in Hy.
  change (1 # 2 ^ 53)%Q with (1 # 9007199254740992)%Q in *.
  assert (exact == X1 * 100 * 100)%Q as Hexact.
  { unfold exact, X1. rewrite inject_Z_mult. change (inject_Z 10000) with 10000%Q. field. lra. }
  assert (0 <= exact)%Q as Hexact0 by (rewrite Hexact; lra).
  (* rounding to the nearest integer *)
  pose proof (rint_spec y) as Hk. fold k in Hk.
  assert (0 <= y)%Q as Hy0 by nra.
  pose proof (rint_nonneg y Hy0) as Hk0. fold k in Hk0.
  assert (0 <= inject_Z k)%Q as HK by (rewrite <- (Zle_Qle 0); lia).
  split; [exact Hk0 |].
  (* back to a float *)
  assert (exact * (1 - (1 # 1125899906842624)) - (1 # 2) <= inject_Z k
          /\ inject_Z k <= exact * (1 + (1 # 1125899906842624)) + (1 # 2))%Q as Hround.
  { rewrite Hexact. split; nra. }
  split; [| split; [exact Hround |]].
  - pose proof (float_near (inject_Z k) (inject_Z k) 0 HK ltac:(try split; lra) ltac:(try split; lra)) as Hkf.
    fold (float_of_int k) in Hkf.
    change (1 # 2 ^ 53)%Q with (1 # 9007199254740992)%Q in *.
    pose proof (quotient_near (float_of_int k) (inject_Z k) h 100 HK ltac:(try split; lra)
                  ltac:(change (1 # 2 ^ 53)%Q with (1 # 9007199254740992)%Q in *; split; lra)
                  ltac:(change (1 # 2 ^ 53)%Q with (1 # 9007199254740992)%Q in *;
                        rewrite Hh; split; lra)) as Hq.
    change (1 # 2 ^ 53)%Q with (1 # 9007199254740992)%Q in *.
    assert (0 <= inject_Z k / 100)%Q as Hk100 by (apply Qle_shift_div_l; lra).
    pose proof (float_near (float_of_int k / h) (inject_Z k / 100)
                  ((3 # 1) * (1 # 9007199254740992)) Hk100 ltac:(try split; lra) Hq) as Hres.
    fold (float_truediv (float_of_int k) h) in Hres. fold res in Hres.
    change (1 # 2 ^ 53)%Q with (1 # 9007199254740992)%Q in *.
    assert (k # 100 == inject_Z k / 100)%Q as -> by (rewrite (Qmake_Qdiv k 100); reflexivity).
    split; nra.
  - (* an exact tie apart, the error is too small to move the rounding *)
    intros Hzn Hsmall.
    assert (exact * inject_Z n == 10000 * inject_Z z)%Q as Hen.
    { unfold exact. rewrite inject_Z_mult. change (inject_Z 10000) with 10000%Q. field. lra. }
    assert (inject_Z z <= inject_Z n)%Q as HzN by (by rewrite <- Zle_Qle).
    assert (inject_Z n < 34359738368)%Q as HnN.
    { change 34359738368%Q with (inject_Z (2 ^ 35)). by rewrite <- Zlt_Qlt. }
    destruct Hround as [Hrlo Hrhi].
    apply (Qmult_le_compat_r _ _ (inject_Z n)) in Hrlo; [| lra].
    apply (Qmult_le_compat_r _ _ (inject_Z n)) in Hrhi; [| lra].
    split.
    + apply (Qmult_le_r _ _ (inject_Z n)); [exact HN |].
      destruct (Z_le_gt_dec (20000 * z) (2 * n * k + n)) as [Hle | Hgt].
      * rewrite Zle_Qle in Hle. rewrite inject_Z_plus, !inject_Z_mult in Hle.
        change (inject_Z 20000) with 20000%Q in Hle. change (inject_Z 2) with 2%Q in Hle.
        nra.
      * exfalso. assert (2 * n * k + n + 1 <= 20000 * z) as Hgt' by lia.
        rewrite Zle_Qle in Hgt'.
        rewrite !inject_Z_plus, !inject_Z_mult in Hgt'.
        change (inject_Z 20000) with 20000%Q in Hgt'. change (inject_Z 2) with 2%Q in Hgt'.
        change (inject_Z 1) with 1%Q in Hgt'.
        nra.
    + apply (Qmult_le_r _ _ (inject_Z n)); [exact HN |].
      destruct (Z_le_gt_dec (2 * n * k) (20000 * z + n)) as [Hle | Hgt].
      * rewrite Zle_Qle in Hle. rewrite inject_Z_plus, !inject_Z_mult in Hle.
        change (inject_Z 20000) with 20000%Q in Hle. change (inject_Z 2) with 2%Q in Hle.
        nra.
      * exfalso. assert (20000 * z + n + 1 <= 2 * n * k) as Hgt' by lia.
        rewrite Zle_Qle in Hgt'.
        rewrite !inject_Z_plus, !inject_Z_mult in Hgt'.
        change (inject_Z 20000) with 20000%Q in Hgt'. change (inject_Z 2) with 2%Q in Hgt'.
        change (inject_Z 1) with 1%Q in Hgt'.
        nra.
Qed.

(** ** The grid of subplots *)

Lemma grid_nrows_ceil (n : nat) :
  Qceiling (inject_Z (Z.of_nat n) / (1 * inject_Z ncols)) = (Z.of_nat n + 2) / 3.
Proof.
  unfold Qceiling, Qfloor, Qdiv, Qmult, Qinv, Qopp, inject_Z, ncols; simpl.
  rewrite !Pos.mul_1_l, Z.mul_1_r.
  pose proof (Z.div_mod (- Z.of_nat n) 3 ltac:(lia)) as H1.
  pose proof (Z.mod_pos_bound (- Z.of_nat n) 3 ltac:(lia)) as H2.
  pose proof (Z.div_mod (Z.of_nat n + 2) 3 ltac:(lia)) as H3.
  pose proof (Z.mod_pos_bound (Z.of_nat n + 2) 3 ltac:(lia)) as H4.
  lia.
Qed.

(** With at least one numeric column the grid has at least two rows and a
    cell for every column. *)
Lemma grid_nrows_covers (n : nat) :
  (0 < n)%nat -> 2 <= grid_nrows n /\ Z.of_nat n <= grid_nrows n * ncols.
Proof.
  intros Hn. unfold grid_nrows. rewrite grid_nrows_ceil. unfold ncols.
  pose proof (Z.div_mod (Z.of_nat n + 2) 3 ltac:(lia)) as H3.
  pose proof (Z.mod_pos_bound (Z.of_nat n + 2) 3 ltac:(lia)) as H4.
  destruct (Z.leb_spec ((Z.of_nat n + 2) / 3) 1); lia.
Qed.

(** Whatever the number of numeric columns, the grid has a cell for each. *)
Lemma grid_nrows_cells (n : nat) : Z.of_nat n <= grid_nrows n * ncols.
Proof.
  destruct n as [| n]; [by vm_compute |].
  apply grid_nrows_covers. lia.
Qed.

(** C1. With no numeric column the number of subplot rows fixed at
    construction is 1: the ceiling is 0 and it is incremented once, so the
    floor of two rows is missed. *)
Theorem grid_nrows_no_numeric_column : grid_nrows 0 = 1 /\ ~ 2 <= grid_nrows 0.
Proof. split; [reflexivity | vm_compute; congruence]. Qed.

(** ** The heatmap guard *)

Ltac py_unfold :=
  unfold mbind, Py_bind, mret, Py_ret, py_print, raise, lift, try_except_KeyError.

(** A step that returns lets the rest of the computation run on its result. *)
Lemma bind_inr {A B : Type} (m : Py A) (k : A -> Py B) (w w' : World) (x : A) :
  m w = (inr x, w') -> (m ≫= k) w = k x w'.
Proof. unfold mbind, Py_bind. by intros ->. Qed.

Lemma copy_id {I : Type} (d : Frame I) : copy d = d.
Proof. by destruct d. Qed.

(** The comparison of [drop_criteria] with a string is a plain boolean
    unless the value is an array-like. *)
Lemma eq_str_run (dc : drop_criteria) (s : string) (w : World) :
  dc <> DropArray -> eq_str dc s w = (inr (bool_decide (dc = DropStr s)), w).
Proof. by destruct dc. Qed.

Section heatmap_facts.
Context {engine : NumericEngine}.

(** A method string that [corr] accepts yields the engine's matrix. *)
Lemma corr_accepted (d : DataFrame) (method : string) :
  method ∈ ["pearson"; "spearman"; "kendall"] ->
  exists corrs, corr d method = inr corrs.
Proof.
  intros Hm. unfold corr.
  repeat case_decide; eauto.
  exfalso. repeat (apply elem_of_cons in Hm as [Hm | Hm]; [congruence |]).
  by apply elem_of_nil in Hm.
Qed.

(** Any other string is refused with [ValueError]. *)
Lemma corr_refused (d : DataFrame) (method : string) :
  method ∉ ["pearson"; "spearman"; "kendall"] ->
  exists msg, corr d method = inl (ValueError msg).
Proof.
  intros Hm. unfold corr.
  repeat case_decide; subst; eauto; exfalso; apply Hm; repeat constructor.
Qed.

(** C2. When the numeric subset has fewer than 2 columns, or the lowercased
    method is not one of pearson, spearman, kendall, [return_heatmap] prints
    one message and returns no figure: no exception, the object unchanged. *)
Theorem return_heatmap_guard (self : DfSummary) (method : string) (dc : drop_criteria)
    (w : World) :
  (length (columns (select_dtypes_number (df self))) < 2)%nat
  \/ lower method ∉ ["pearson"; "spearman"; "kendall"] ->
  return_heatmap self method dc w =
    (inr (None, self),
     mkWorld (stdout w ++ ["Invalid data or correlation method provided for heatmap to be generated."])
             (heap w) (rng w)).
Proof.
  intros Hguard. unfold return_heatmap.
  assert (((shape (select_dtypes_number (df self))).2 <? 2)%nat
          || negb (bool_decide (lower method ∈ ["pearson"; "spearman"; "kendall"])) = true)
    as ->; [| reflexivity].
  apply orb_true_iff. destruct Hguard as [Hcols | Hmethod].
  - left. by apply Nat.ltb_lt.
  - right. apply negb_true_iff. by apply bool_decide_eq_false.
Qed.

(** A method that passes the guard in another case than pandas' own spelling
    reaches [corr] as it was given and is refused there. *)
Lemma return_heatmap_case_variant (self : DfSummary) (method : string) (w : World) :
  (2 <= length (columns (select_dtypes_number (df self))))%nat ->
  lower method ∈ ["pearson"; "spearman"; "kendall"] ->
  method ∉ ["pearson"; "spearman"; "kendall"] ->
  exists msg, return_heatmap self method DropNone w = (inl (ValueError msg), w).
Proof.
  intros Hcols Hlow Hm. unfold return_heatmap.
  assert (((shape (select_dtypes_number (df self))).2 <? 2)%nat
          || negb (bool_decide (lower method ∈ ["pearson"; "spearman"; "kendall"])) = false)
    as ->.
  { apply orb_false_iff. split.
    - apply Nat.ltb_ge. exact Hcols.
    - apply negb_false_iff. by apply bool_decide_eq_true. }
  destruct (corr_refused (select_dtypes_number (df self)) method Hm) as [msg Hmsg].
  exists msg. unfold return_heatmap_data, drop_nulls, eq_str. py_unfold. simpl.
  rewrite copy_id, Hmsg. by destruct w.
Qed.
End heatmap_facts.

Lemma return_heatmap_guard_witness :
  (lower "invalid" ∉ ["pearson"; "spearman"; "kendall"]) /\
  return_heatmap (engine := identity_engine) (init (inl df_AB)) "invalid" DropNone world0 =
    (inr (None, init (inl df_AB)),
     mkWorld ["Invalid data or correlation method provided for heatmap to be generated."] ∅ 0%nat).
Proof.
  assert (lower "invalid" ∉ ["pearson"; "spearman"; "kendall"]) as Hm.
  { vm_compute. intros H.
    repeat (apply elem_of_cons in H as [H | H]; [discriminate H |]).
    by apply elem_of_nil in H. }
  split; [exact Hm |].
  apply (return_heatmap_guard (engine := identity_engine)
           (init (inl df_AB)) "invalid" DropNone world0).
  right. exact Hm.
Defined.

(** C3. On a dataset with two numeric columns the method "PEARSON" passes
    the guard of [return_heatmap], whose test lowercases it, and is then
    handed unchanged to [corr], which raises [ValueError]: no correlation
    result is produced. *)
Theorem return_heatmap_PEARSON_raises :
  lower "PEARSON" = "pearson" /\
  length (columns (select_dtypes_number df_AB)) = 2%nat /\
  forall engine : NumericEngine,
    return_heatmap (init (inl df_AB)) "PEARSON" DropNone world0 =
      (inl (ValueError "method must be either 'pearson', 'spearman', 'kendall', or a callable, 'PEARSON' was supplied"),
       world0).
Proof.
  split; [reflexivity |]. split; [reflexivity |].
  intros engine. reflexivity.
Qed.

(** ** Dropping rows and columns *)

Section dropna_facts.
Context {I : Type}.
Implicit Types (d : Frame I) (cols : list Column) (positions : list nat).

Lemma filter_fmap_comm {A B : Type} (f : A -> B) (P : B -> Prop)
    `{!forall y, Decision (P y)} (l : list A) :
  f <$> filter (fun x => P (f x)) l = filter P (f <$> l).
Proof.
  induction l as [| x l IH]; [done |].
  rewrite fmap_cons, !filter_cons.
  case_decide; [rewrite fmap_cons |]; by rewrite IH.
Qed.

Lemma length_omap_le {A B : Type} (f : A -> option B) (l : list A) :
  (length (omap f l) <= length l)%nat.
Proof.
  induction l as [| x l IH]; [done |].
  change (omap f (x :: l))
    with (match f x with Some y => y :: omap f l | None => omap f l end).
  destruct (f x); simpl; lia.
Qed.

Lemma length_omap_lookup {A : Type} (xs : list A) positions :
  Forall (fun i => (i < length xs)%nat) positions ->
  length (omap (fun i => xs !! i) positions) = length positions.
Proof.
  induction 1 as [| i positions Hi _ IH]; [done |].
  change (omap (fun i => xs !! i) (i :: positions))
    with (match xs !! i with
          | Some y => y :: omap (fun i => xs !! i) positions
          | None => omap (fun i => xs !! i) positions
          end).
  destruct (lookup_lt_is_Some_2 xs i Hi) as [x ->]. simpl. by rewrite IH.
Qed.

(** The rows of a selection are the selected rows. *)
Lemma rows_take_rows d positions :
  Forall (fun i => (i < len d)%nat) positions ->
  rows (take_rows positions d) = row_of (columns d) <$> positions.
Proof.
  intros Hpos. unfold rows, take_rows, len. simpl.
  rewrite (length_omap_lookup _ _ Hpos).
  apply list_eq. intros j.
  rewrite !list_lookup_fmap.
  destruct (decide (j < length positions)%nat) as [Hj | Hj].
  - destruct (lookup_lt_is_Some_2 positions j Hj) as [i Hi].
    rewrite Hi. rewrite (proj2 (lookup_seq 0 (length positions) j j)); [| by split].
    simpl. f_equal. unfold row_of. rewrite <- list_fmap_compose.
    apply list_fmap_ext. intros _ c _. unfold cell_at. simpl.
    by rewrite list_lookup_fmap, Hi.
  - rewrite (lookup_ge_None_2 positions j); [| lia].
    rewrite lookup_ge_None_2; [done |]. rewrite length_seq. lia.
Qed.

(** A row has as many non-null cells as cells exactly when none is null. *)
Lemma count_notnull_row_full cols i :
  count_notnull_row cols i = length cols <->
  forallb notnull (row_of cols i) = true.
Proof.
  unfold count_notnull_row, row_of.
  induction cols as [| c cols IH]; [done |].
  rewrite filter_cons. simpl.
  pose proof (length_filter (fun c => notnull (cell_at c i) = true) cols) as Hle.
  destruct (notnull (cell_at c i)) eqn:Hc; case_decide; try done; simpl.
  - rewrite <- IH. lia.
  - split; [lia | done].
Qed.

Lemma seq_positions_bound (P : nat -> Prop) `{!forall i, Decision (P i)} (n : nat) :
  Forall (fun i => (i < n)%nat) (filter P (seq 0 n)).
Proof.
  apply Forall_forall. intros i [_ Hi%elem_of_seq]%list_elem_of_filter. lia.
Qed.

(** [dropna] on rows without a subset keeps exactly the rows without null. *)
Lemma dropna_rows_any d :
  exists corr_data,
    dropna_rows None d = inr corr_data /\
    rows corr_data = filter (fun r => forallb notnull r = true) (rows d).
Proof.
  eexists. split; [reflexivity |].
  rewrite rows_take_rows by apply seq_positions_bound.
  unfold rows. rewrite <- filter_fmap_comm. f_equal.
  apply list_filter_iff. intros i. apply count_notnull_row_full.
Qed.

Lemma length_rows d : length (rows d) = len d.
Proof. unfold rows. by rewrite length_fmap, length_seq. Qed.

Lemma dropna_rows_shape subset d corr_data :
  dropna_rows subset d = inr corr_data ->
  ((shape corr_data).1 <= (shape d).1)%nat.
Proof.
  unfold dropna_rows. intros Hdrop.
  assert (forall cols,
    (length (index (take_rows
       (filter (fun i => count_notnull_row cols i = length cols) (seq 0 (len d))) d))
     <= length (index d))%nat) as Hle.
  { intros cols. simpl. etrans; [apply length_omap_le |].
    etrans; [apply length_filter |]. by rewrite length_seq. }
  destruct subset as [names |]; [case_decide |]; simplify_eq; simpl; apply Hle.
Qed.

(** A subset naming a column the frame lacks makes [dropna] raise. *)
Lemma dropna_rows_missing d (names : list label) :
  (exists n, n ∈ names /\ n ∉ column_names d) ->
  exists missing, dropna_rows (Some names) d = inl (KeyError missing).
Proof.
  intros (n & Hn & Hmiss). unfold dropna_rows.
  case_decide as Hnil; [| eauto].
  exfalso. eapply (filter_nil_not_elem_of _ _ n Hnil); eauto.
Qed.

(** The only exception of [dropna] is [KeyError]. *)
Lemma dropna_rows_raises subset d (e : exn) :
  dropna_rows subset d = inl e -> exists missing, e = KeyError missing.
Proof.
  unfold dropna_rows. destruct subset as [names |]; [| done].
  case_decide; [done |]. intros [= <-]. eauto.
Qed.

Lemma dropna_cols_shape d : ((shape (dropna_cols d)).2 <= (shape d).2)%nat.
Proof. simpl. apply length_filter. Qed.
End dropna_facts.

(** [join] accepts a list of strings. *)
Lemma join_items_strings (i : nat) (names : list string) :
  join_items i (LStr <$> names) = inr names.
Proof.
  revert i. induction names as [| n names IH]; intros i; [done |].
  simpl. by rewrite IH.
Qed.

Lemma str_join_strings (sep : string) (names : list string) :
  str_join sep (LStr <$> names) = inr (join sep names).
Proof. unfold str_join. by rewrite join_items_strings. Qed.

(** ** The heatmap data *)

Section heatmap_data_facts.
Context {engine : NumericEngine}.

(** Under 'any_rows' the call returns what [corr] yields on the rows
    without null, with the count of the rows dropped. *)
Lemma heatmap_data_any_rows_run (d : DataFrame) (method : string) (w : World) :
  exists corr_data,
    dropna_rows None d = inr corr_data /\
    rows corr_data = filter (fun r => forallb notnull r = true) (rows d) /\
    return_heatmap_data d method (DropStr "any_rows") w =
      (match corr corr_data method with
       | inl e => inl e
       | inr corrs =>
           inr (<["corrs" := PFrame corrs]>
                  (<["title_text" := PStr "rows"]>
                     (<["drop_count" :=
                          PInt (Z.of_nat (length (rows d)) - Z.of_nat (length (rows corr_data)))]>
                        ∅)))
       end, w).
Proof.
  destruct (dropna_rows_any d) as (corr_data & Hdrop & Hrows).
  exists corr_data. split; [done |]. split; [done |].
  unfold return_heatmap_data, drop_nulls, eq_str. py_unfold. cbv beta iota.
  rewrite bool_decide_eq_true_2 by done. rewrite Hdrop. simpl.
  unfold dropped. rewrite !length_rows. unfold len.
  destruct (corr corr_data method); by destruct w.
Qed.

(** C7. Under 'any_rows', with a method [corr] accepts, the correlation is
    computed on exactly the rows of the subset that hold no null, in order;
    with n rows of which k hold no null, the dictionary returned has
    drop_count n - k and the description "rows". *)
Theorem heatmap_data_any_rows (d : DataFrame) (method : string) (w : World) :
  method ∈ ["pearson"; "spearman"; "kendall"] ->
  let kept := filter (fun r => forallb notnull r = true) (rows d) in
  let n := Z.of_nat (length (rows d)) in
  let k := Z.of_nat (length kept) in
  exists corr_data corrs,
    dropna_rows None d = inr corr_data /\
    rows corr_data = kept /\
    corr corr_data method = inr corrs /\
    return_heatmap_data d method (DropStr "any_rows") w =
      (inr (<["corrs" := PFrame corrs]>
              (<["title_text" := PStr "rows"]> (<["drop_count" := PInt (n - k)]> ∅))),
       w).
Proof.
  intros Hm kept n k.
  destruct (heatmap_data_any_rows_run d method w) as (corr_data & Hdrop & Hrows & Hrun).
  destruct (corr_accepted corr_data method Hm) as [corrs Hcorrs].
  exists corr_data, corrs. split; [done |]. split; [done |]. split; [done |].
  rewrite Hrun, Hcorrs. unfold n, k, kept. by rewrite Hrows.
Qed.
End heatmap_data_facts.

Section heatmap_data_facts2.
Context {engine : NumericEngine}.

(** C6. When the list names a column the subset lacks, the [KeyError] of
    [dropna] is caught: one warning is printed, drop_count is 0, the
    description is "rows or columns", and the correlation is the one [corr]
    computes on the whole subset; with a method [corr] accepts the call
    returns that dictionary and raises nothing. *)
Theorem heatmap_data_missing_column (d : DataFrame) (method : string)
    (cols : list label) (w : World) :
  (exists c, c ∈ cols /\ c ∉ column_names d) ->
  let w' := mkWorld (stdout w ++ ["Specified column does not exist in data.  No Null values were dropped."])
                    (heap w) (rng w) in
  let result corrs : gmap string pyval :=
    <["corrs" := PFrame corrs]>
      (<["title_text" := PStr "rows or columns"]> (<["drop_count" := PInt 0]> ∅)) in
  return_heatmap_data d method (DropList cols) w =
    (match corr d method with
     | inl e => inl e
     | inr corrs => inr (result corrs)
     end, w')
  /\ (method ∈ ["pearson"; "spearman"; "kendall"] ->
      exists corrs,
        corr d method = inr corrs /\
        return_heatmap_data d method (DropList cols) w = (inr (result corrs), w')).
Proof.
  intros Hmissing w' result.
  destruct (dropna_rows_missing d cols Hmissing) as [missing Hdrop].
  assert (return_heatmap_data d method (DropList cols) w =
            (match corr d method with
             | inl e => inl e
             | inr corrs => inr (result corrs)
             end, w')) as Hcall.
  { unfold return_heatmap_data, drop_nulls, eq_str. py_unfold. cbv beta iota.
    rewrite !bool_decide_eq_false_2 by done. rewrite Hdrop. simpl.
    rewrite copy_id. by destruct (corr d method). }
  split; [exact Hcall |].
  intros Hm. destruct (corr_accepted d method Hm) as [corrs Hcorrs].
  exists corrs. split; [done |]. by rewrite Hcall, Hcorrs.
Qed.

Lemma prepared_intro (before after : nat) (text : string) :
  (after <= before)%nat ->
  prepared (<["title_text" := PStr text]> (<["drop_count" := dropped before after]> ∅)).
Proof. intros Hle. eexists _, text. split; [| reflexivity]. lia. Qed.

Lemma prepared_no_drop :
  prepared (<["title_text" := PStr "rows or columns"]> (<["drop_count" := PInt 0]> ∅)).
Proof. by exists 0, "rows or columns". Qed.

(** The frame a drop hands to [corr]: that of [dropna] on rows or on
    columns, or the subset itself. *)
Lemma drop_nulls_run (d : DataFrame) (dc : drop_criteria) (w : World) :
  criteria_accepted d dc ->
  exists corr_data data w',
    drop_nulls d dc ∅ w = (inr (corr_data, data), w') /\ prepared data /\
    heap w' = heap w /\ rng w' = rng w /\
    ((exists subset, dropna_rows subset d = inr corr_data)
     \/ corr_data = dropna_cols d \/ corr_data = d).
Proof.
  intros Hdc. unfold drop_nulls, eq_str.
  destruct dc as [| s | cols | |]; [| | | done |]; py_unfold; cbv beta iota.
  - rewrite !bool_decide_eq_false_2 by done. rewrite decide_False by (by intros H; apply H).
    eexists _, _, w. split; [reflexivity |]. split; [apply prepared_no_drop |].
    rewrite copy_id. eauto.
  - destruct (decide (s = "any_rows")) as [-> | Hrows].
    { rewrite bool_decide_eq_true_2 by done.
      destruct (dropna_rows_any d) as (corr_data & Hdrop & _). rewrite Hdrop.
      eexists corr_data, _, w. split; [reflexivity |].
      split; [apply prepared_intro, (dropna_rows_shape None), Hdrop |]. eauto 6. }
    rewrite (bool_decide_eq_false_2 (DropStr s = DropStr "any_rows")) by congruence.
    destruct (decide (s = "any_cols")) as [-> | Hcols].
    { rewrite bool_decide_eq_true_2 by done.
      eexists _, _, w. split; [reflexivity |].
      split; [apply prepared_intro, dropna_cols_shape |]. eauto. }
    rewrite (bool_decide_eq_false_2 (DropStr s = DropStr "any_cols")) by congruence.
    rewrite decide_True by done.
    eexists _, _, _. split; [reflexivity |]. split; [apply prepared_no_drop |].
    rewrite copy_id. cbn [heap rng]. eauto.
  - rewrite !bool_decide_eq_false_2 by done.
    destruct (dropna_rows (Some cols) d) as [e | corr_data] eqn:Hdrop.
    + destruct (dropna_rows_raises _ _ _ Hdrop) as [missing ->].
      eexists _, _, _. split; [reflexivity |]. split; [apply prepared_no_drop |].
      rewrite copy_id. cbn [heap rng]. eauto.
    + destruct Hdc as [Hmissing | [names ->]].
      { destruct (dropna_rows_missing d cols Hmissing) as [missing Hraise]. congruence. }
      rewrite str_join_strings.
      eexists corr_data, _, w. split; [reflexivity |].
      split; [apply prepared_intro, (dropna_rows_shape (Some (LStr <$> names))), Hdrop |].
      eauto 6.
  - rewrite !bool_decide_eq_false_2 by done. rewrite decide_True by done.
    eexists _, _, _. split; [reflexivity |]. split; [apply prepared_no_drop |].
    rewrite copy_id. cbn [heap rng]. eauto.
Qed.

(** C10. With a method string that [corr] accepts (pearson, spearman or
    kendall as spelled) and a [drop_criteria] that is [None], a string, a
    list that names a column the frame lacks or holds strings only, or
    another value that is not an array-like, [return_heatmap_data] returns
    a dictionary with exactly the keys corrs, drop_count and title_text, and
    drop_count is a non-negative integer. *)
Theorem heatmap_data_keys (d : DataFrame) (method : string) (dc : drop_criteria)
    (w : World) :
  method ∈ ["pearson"; "spearman"; "kendall"] ->
  match dc with
  | DropArray => False
  | DropList cols =>
      (exists c, c ∈ cols /\ c ∉ column_names d) \/ (exists names : list string, cols = LStr <$> names)
  | _ => True
  end ->
  exists (data : gmap string pyval) (w' : World) (corrs : Frame label)
         (count : Z) (text : string),
    return_heatmap_data d method dc w = (inr data, w') /\
    data !! "corrs" = Some (PFrame corrs) /\
    data !! "drop_count" = Some (PInt count) /\
    0 <= count /\
    data !! "title_text" = Some (PStr text) /\
    dom data = {["corrs"; "drop_count"; "title_text"]}.
Proof.
  intros Hm Hdc.
  destruct (drop_nulls_run d dc w Hdc)
    as (corr_data & data & w' & Hdrop & (count & text & Hcount & ->) & _).
  destruct (corr_accepted corr_data method Hm) as [corrs Hcorrs].
  eexists _, w', corrs, count, text. split.
  { unfold return_heatmap_data. rewrite (bind_inr _ _ _ _ _ Hdrop).
    py_unfold. rewrite Hcorrs. reflexivity. }
  split; [by simplify_map_eq |]. split; [by simplify_map_eq |].
  split; [done |]. split; [by simplify_map_eq |].
  rewrite !dom_insert_L, dom_empty_L. set_solver.
Qed.
End heatmap_data_facts2.

(** ** The other drop criteria *)

Lemma filter_iff_in {A : Type} (P Q : A -> Prop)
    `{!forall x, Decision (P x), !forall x, Decision (Q x)} (l : list A) :
  Forall (fun x => P x <-> Q x) l -> filter P l = filter Q l.
Proof.
  induction 1 as [| x l Hx _ IH]; [done |].
  rewrite !filter_cons, IH.
  destruct (decide (P x)), (decide (Q x)); try done; exfalso; tauto.
Qed.

Lemma filter_none {A : Type} (P : A -> Prop) `{!forall x, Decision (P x)} (l : list A) :
  Forall (fun x => ~ P x) l -> filter P l = [].
Proof.
  induction 1 as [| x l Hx _ IH]; [done |].
  by rewrite filter_cons_False.
Qed.

Lemma length_filter_all {A : Type} (P : A -> Prop) `{!forall x, Decision (P x)}
    (l : list A) :
  length (filter P l) = length l <-> Forall P l.
Proof.
  induction l as [| x l IH]; [by split; [constructor |] |].
  pose proof (length_filter P l) as Hle.
  rewrite filter_cons. case_decide as Hx; simpl.
  - rewrite Forall_cons. split.
    + intros [= Hlen]. split; [done | by apply IH].
    + intros [_ Hall]. f_equal. by apply IH.
  - split; [lia |]. by intros [? _]%Forall_cons.
Qed.

(** A column counts as many non-null cells as cells when it holds no null. *)
Lemma count_notnull_full (c : Column) :
  count_notnull c = length (c_values c) <-> forallb notnull (c_values c) = true.
Proof.
  unfold count_notnull. rewrite length_filter_all.
  rewrite <- Is_true_true, forallb_True.
  apply Forall_iff. intros x. by rewrite Is_true_true.
Qed.

(** On a well-formed frame [dropna] on columns keeps the columns without
    null. *)
Lemma dropna_cols_kept {I : Type} (d : Frame I) :
  well_formed d ->
  dropna_cols d
  = mkFrame (index d) (filter (fun c => forallb notnull (c_values c) = true) (columns d)).
Proof.
  intros Hwf. unfold dropna_cols. f_equal.
  apply filter_iff_in. eapply Forall_impl; [exact Hwf |].
  intros c Hlen. cbv beta in *. unfold len. rewrite <- Hlen. apply count_notnull_full.
Qed.

Section more_heatmap_data.
Context {engine : NumericEngine}.

(** X1. Under 'any_cols', on a well-formed subset and with a method [corr]
    accepts, the correlation is computed on the columns that hold no null,
    in order, over all rows; drop_count is the number of columns removed and
    the description is "columns"; nothing is printed. *)
Theorem heatmap_data_any_cols (d : DataFrame) (method : string) (w : World) :
  well_formed d ->
  method ∈ ["pearson"; "spearman"; "kendall"] ->
  let kept := filter (fun c => forallb notnull (c_values c) = true) (columns d) in
  exists corrs,
    corr (mkFrame (index d) kept) method = inr corrs /\
    return_heatmap_data d method (DropStr "any_cols") w =
      (inr (<["corrs" := PFrame corrs]>
              (<["title_text" := PStr "columns"]>
                 (<["drop_count" :=
                      PInt (Z.of_nat (length (columns d)) - Z.of_nat (length kept))]> ∅))),
       w).
Proof.
  intros Hwf Hm kept.
  destruct (corr_accepted (mkFrame (index d) kept) method Hm) as [corrs Hcorrs].
  exists corrs. split; [done |].
  unfold return_heatmap_data, drop_nulls, eq_str. py_unfold. cbv beta iota.
  rewrite bool_decide_eq_false_2 by done. rewrite bool_decide_eq_true_2 by done.
  rewrite (dropna_cols_kept d Hwf). fold kept. cbn [fst snd]. rewrite Hcorrs.
  by destruct w.
Qed.

(** The columns [dropna] judges the rows on are the columns of the frame
    whose name is in the subset. *)
Lemma judged_columns {I : Type} (d : Frame I) (names : list label) (c : Column) :
  c ∈ flat_map (fun n => filter (fun c => c_name c = n) (columns d)) names
  <-> c ∈ columns d /\ c_name c ∈ names.
Proof.
  rewrite list_elem_of_In, in_flat_map. split.
  - intros (n & Hn & Hc). apply list_elem_of_In, list_elem_of_filter in Hc as [<- Hc].
    split; [done |]. by apply list_elem_of_In.
  - intros [Hc Hn]. exists (c_name c). split; [by apply list_elem_of_In |].
    apply list_elem_of_In, list_elem_of_filter. by split.
Qed.

Lemma count_notnull_row_all (cols : list Column) (i : nat) :
  count_notnull_row cols i = length cols
  <-> Forall (fun c => notnull (cell_at c i) = true) cols.
Proof. unfold count_notnull_row. apply length_filter_all. Qed.

Lemma column_names_take_rows {I : Type} (d : Frame I) (positions : list nat) :
  column_names (take_rows positions d) = column_names d.
Proof.
  unfold column_names, take_rows. cbn [columns].
  rewrite map_map. by apply map_ext.
Qed.

(** X2. With a list of names that are all columns of the subset and a
    method [corr] accepts, the rows kept are those without null in any
    column named in the list, in order, and all columns are kept; drop_count
    is the number of rows removed and the description quotes the names
    joined by ", "; nothing is printed. *)
Theorem heatmap_data_named_columns (d : DataFrame) (method : string)
    (names : list string) (w : World) :
  (forall n, n ∈ names -> LStr n ∈ column_names d) ->
  method ∈ ["pearson"; "spearman"; "kendall"] ->
  let judged i :=
    Forall (fun c => c_name c ∈ (LStr <$> names) -> notnull (cell_at c i) = true) (columns d) in
  let kept := filter judged (seq 0 (len d)) in
  exists corr_data corrs,
    dropna_rows (Some (LStr <$> names)) d = inr corr_data /\
    rows corr_data = row_of (columns d) <$> kept /\
    column_names corr_data = column_names d /\
    corr corr_data method = inr corrs /\
    return_heatmap_data d method (DropList (LStr <$> names)) w =
      (inr (<["corrs" := PFrame corrs]>
              (<["title_text" :=
                   PStr ("rows (subsetted on " +:+ join ", " names +:+ ") Null values")]>
                 (<["drop_count" := PInt (Z.of_nat (len d) - Z.of_nat (length kept))]> ∅))),
       w).
Proof.
  intros Hnames Hm judged kept.
  assert (dropna_rows (Some (LStr <$> names)) d = inr (take_rows kept d)) as Hdrop.
  { unfold dropna_rows.
    rewrite (filter_none (fun n => n ∉ column_names d) (LStr <$> names)).
    2:{ apply Forall_forall. intros n [n' [-> Hn]]%list_elem_of_fmap Hnot.
        by apply Hnot, Hnames. }
    rewrite decide_True by done. do 2 f_equal.
    apply list_filter_iff. intros i. unfold judged.
    rewrite count_notnull_row_all, !Forall_forall. split.
    - intros Hall c Hc Hn. apply Hall. by apply judged_columns.
    - intros Hall c [Hc Hn]%judged_columns. by apply Hall. }
  destruct (corr_accepted (take_rows kept d) method Hm) as [corrs Hcorrs].
  exists (take_rows kept d), corrs. split; [done |].
  split; [apply rows_take_rows, seq_positions_bound |].
  split; [apply column_names_take_rows |]. split; [done |].
  unfold return_heatmap_data, drop_nulls, eq_str. py_unfold. cbv beta iota.
  rewrite !bool_decide_eq_false_2 by done. rewrite Hdrop, str_join_strings.
  py_unfold. cbn [fst snd]. rewrite Hcorrs. unfold dropped, shape. cbn [fst index take_rows].
  rewrite (length_omap_lookup (index d) kept) by apply seq_positions_bound.
  by destruct w.
Qed.

(** X3. A [drop_criteria] that is neither 'any_rows', 'any_cols', a list
    nor an array-like drops nothing: the correlation is computed on the
    whole subset, drop_count is 0 and the description is "rows or columns";
    the warning about an incorrect criteria is printed unless the criteria
    is [None]. *)
Theorem heatmap_data_no_drop (d : DataFrame) (method : string) (dc : drop_criteria)
    (w : World) :
  dc ≠ DropStr "any_rows" -> dc ≠ DropStr "any_cols" ->
  (forall names, dc ≠ DropList names) ->
  dc ≠ DropArray ->
  method ∈ ["pearson"; "spearman"; "kendall"] ->
  exists corrs,
    corr d method = inr corrs /\
    return_heatmap_data d method dc w =
      (inr (<["corrs" := PFrame corrs]>
              (<["title_text" := PStr "rows or columns"]> (<["drop_count" := PInt 0]> ∅))),
       mkWorld (stdout w ++
                  (if decide (dc = DropNone) then []
                   else ["Incorrect drop criteria specified.  No Null values were dropped."]))%list
               (heap w) (rng w)).
Proof.
  intros Hrows Hcols Hlist Harray Hm.
  destruct (corr_accepted d method Hm) as [corrs Hcorrs].
  exists corrs. split; [done |].
  unfold return_heatmap_data, drop_nulls, eq_str.
  destruct dc as [| s | names | |]; [| | by destruct (Hlist names) | done |];
    py_unfold; cbv beta iota; rewrite !bool_decide_eq_false_2 by done.
  - rewrite decide_False by (by intros H; apply H).
    rewrite decide_True by done. cbn [fst snd]. rewrite copy_id, Hcorrs, app_nil_r.
    by destruct w.
  - rewrite decide_True by done. rewrite decide_False by done.
    cbn [fst snd stdout heap rng]. by rewrite copy_id, Hcorrs.
  - rewrite decide_True by done. rewrite decide_False by done.
    cbn [fst snd stdout heap rng]. by rewrite copy_id, Hcorrs.
Qed.
End more_heatmap_data.

Lemma accepted_lower (method : string) :
  method ∈ ["pearson"; "spearman"; "kendall"] -> lower method = method.
Proof.
  intros Hm.
  repeat (apply elem_of_cons in Hm as [-> | Hm]; [reflexivity |]).
  by apply elem_of_nil in Hm.
Qed.

Section heatmap_more.
Context {engine : NumericEngine}.

(** X4. With at least 2 numeric columns, a method [corr] accepts and a
    [drop_criteria] on which the drop is defined, [return_heatmap] raises
    nothing: the dictionary of [return_heatmap_data] on the numeric subset
    is stored in [heatmap_data], the dataset and the grid are kept; when the
    matrix has no non-null entry a message is printed and no figure is
    returned, otherwise the figure shows the matrix under the upper-triangle
    mask, scaled from -1 to 1, titled with the capitalized method, the count
    and the description. *)
Theorem return_heatmap_accepted (self : DfSummary) (method : string)
    (dc : drop_criteria) (w : World) :
  (2 <= length (columns (select_dtypes_number (df self))))%nat ->
  method ∈ ["pearson"; "spearman"; "kendall"] ->
  match dc with
  | DropArray => False
  | DropList cols =>
      (exists c, c ∈ cols /\ c ∉ column_names (select_dtypes_number (df self)))
      \/ (exists names : list string, cols = LStr <$> names)
  | _ => True
  end ->
  exists data w1 corrs count text,
    return_heatmap_data (select_dtypes_number (df self)) method dc w = (inr data, w1) /\
    data !! "corrs" = Some (PFrame corrs) /\
    data !! "drop_count" = Some (PInt count) /\
    data !! "title_text" = Some (PStr text) /\
    let self' := mkDfSummary (df self) (nrows self) (Some data) in
    return_heatmap self method dc w =
      if (notnull_total corrs =? 0)%nat then
        (inr (None, self'),
         mkWorld (stdout w1 ++ ["There is no data left for calcualting pair-wise correlations."])
                 (heap w1) (rng w1))
      else
        (inr (Some (mkHeatmap corrs
                      (triu_mask (length (index corrs)) (length (columns corrs)))
                      (-1) 1
                      ("Heatmap of " +:+ capitalize method
                         +:+ " correlation between numeric fields with "
                         +:+ pretty count +:+ " " +:+ text +:+ " dropped")),
              self'),
         w1).
Proof.
  intros Hcols Hm Hdc.
  set (d := select_dtypes_number (df self)) in *.
  destruct (drop_nulls_run d dc w Hdc)
    as (corr_data & data0 & w1 & Hdrop & (count & text & Hcount & ->) & _).
  destruct (corr_accepted corr_data method Hm) as [corrs Hcorrs].
  assert (return_heatmap_data d method dc w
          = (inr (<["corrs" := PFrame corrs]>
                    (<["title_text" := PStr text]> (<["drop_count" := PInt count]> ∅))),
             w1)) as Hdata.
  { unfold return_heatmap_data. rewrite (bind_inr _ _ _ _ _ Hdrop).
    py_unfold. by rewrite Hcorrs. }
  eexists _, w1, corrs, count, text. split; [exact Hdata |].
  split; [by simplify_map_eq |]. split; [by simplify_map_eq |].
  split; [by simplify_map_eq |].
  intros self'. unfold return_heatmap. fold d.
  assert (((shape d).2 <? 2)%nat
          || negb (bool_decide (lower method ∈ ["pearson"; "spearman"; "kendall"])) = false)
    as ->.
  { apply orb_false_iff. split.
    - apply Nat.ltb_ge. exact Hcols.
    - apply negb_false_iff, bool_decide_eq_true. by rewrite accepted_lower. }
  rewrite (bind_inr _ _ _ _ _ Hdata).
  unfold dict_getitem. rewrite lookup_insert_eq.
  py_unfold. cbn [fst snd].
  destruct (notnull_total corrs =? 0)%nat; [reflexivity |].
  rewrite lookup_insert_ne by done. rewrite lookup_insert_ne by done.
  rewrite lookup_insert_eq.
  rewrite lookup_insert_ne by done. rewrite lookup_insert_eq.
  reflexivity.
Qed.

(** X5. An object built from a series has one column, so [return_heatmap]
    always stops at its guard: the message is printed, no figure is
    returned, the object is unchanged, whatever the method and the
    criteria. *)
Theorem return_heatmap_of_series (s : Series Z) (method : string) (dc : drop_criteria)
    (w : World) :
  return_heatmap (init (inr s)) method dc w =
    (inr (None, init (inr s)),
     mkWorld (stdout w ++ ["Invalid data or correlation method provided for heatmap to be generated."])
             (heap w) (rng w)).
Proof.
  unfold return_heatmap.
  assert (((shape (select_dtypes_number (df (init (inr s))))).2 <? 2)%nat = true) as ->;
    [| reflexivity].
  apply Nat.ltb_lt. cbn [init df to_frame shape snd select_dtypes_number columns].
  eapply Nat.le_lt_trans; [apply length_filter |]. simpl. lia.
Qed.
End heatmap_more.

(** X6. With n >= 1 numeric columns the grid has at least 2 rows and a
    cell for every column, and with n >= 4 no row is entirely blank: one
    row fewer would not hold the columns. *)
Theorem grid_nrows_tight (n : nat) :
  (0 < n)%nat ->
  2 <= grid_nrows n /\
  Z.of_nat n <= grid_nrows n * ncols /\
  ((3 < n)%nat -> (grid_nrows n - 1) * ncols < Z.of_nat n).
Proof.
  intros Hn. destruct (grid_nrows_covers n Hn) as [Htwo Hcover].
  split; [done |]. split; [done |]. intros Hbig.
  unfold grid_nrows in *. rewrite grid_nrows_ceil in *. unfold ncols in *.
  pose proof (Z.div_mod (Z.of_nat n + 2) 3 ltac:(lia)) as H3.
  pose proof (Z.mod_pos_bound (Z.of_nat n + 2) 3 ltac:(lia)) as H4.
  destruct (Z.leb_spec ((Z.of_nat n + 2) / 3) 1); lia.
Qed.

(** ** The frame kept for the correlation *)

Lemma take_rows_well_formed {I : Type} (d : Frame I) (positions : list nat) :
  Forall (fun i => (i < len d)%nat) positions ->
  well_formed (take_rows positions d).
Proof.
  intros Hpos. unfold well_formed, take_rows. cbn [columns index].
  rewrite (length_omap_lookup _ _ Hpos).
  apply Forall_forall. intros c [c' [-> _]]%list_elem_of_fmap.
  cbn [c_values]. by rewrite length_map.
Qed.

Lemma dropna_cols_well_formed {I : Type} (d : Frame I) :
  well_formed d -> well_formed (dropna_cols d).
Proof.
  unfold well_formed, dropna_cols. cbn [columns index]. intros Hwf.
  apply Forall_forall. intros c [_ Hc]%list_elem_of_filter.
  by apply (proj1 (Forall_forall _ _) Hwf).
Qed.

Lemma dropna_rows_well_formed {I : Type} (subset : option (list label)) (d corr_data : Frame I) :
  dropna_rows subset d = inr corr_data ->
  well_formed corr_data /\ column_names corr_data = column_names d.
Proof.
  unfold dropna_rows.
  assert (forall mask : nat -> Prop, forall Hdec : (forall i, Decision (mask i)),
            well_formed (take_rows (filter mask (seq 0 (len d))) d) /\
            column_names (take_rows (filter mask (seq 0 (len d))) d) = column_names d) as Hkept.
  { intros mask Hdec. split; [apply take_rows_well_formed, seq_positions_bound |].
    unfold column_names, take_rows. cbn [columns]. rewrite map_map. by apply map_ext. }
  destruct subset as [names |]; [case_decide |]; intros [= <-]; apply Hkept.
Qed.

(** X13. For every [drop_criteria] on which the drop is defined (not an
    array-like, and a list only when it names a column the subset lacks or
    holds strings only), the drop raises nothing and the frame it hands to
    [corr] is well formed when the subset is, and its columns are among
    those of the subset, in order; the object store and the random
    generator are untouched. *)
Theorem corr_data_well_formed (d : DataFrame) (dc : drop_criteria) (w : World) :
  well_formed d ->
  match dc with
  | DropArray => False
  | DropList cols =>
      (exists c, c ∈ cols /\ c ∉ column_names d) \/ (exists names : list string, cols = LStr <$> names)
  | _ => True
  end ->
  exists corr_data data w',
    drop_nulls d dc ∅ w = (inr (corr_data, data), w') /\
    well_formed corr_data /\
    column_names corr_data `sublist_of` column_names d /\
    heap w' = heap w /\ rng w' = rng w.
Proof.
  intros Hwf Hdc.
  destruct (drop_nulls_run d dc w Hdc)
    as (corr_data & data & w' & Hdrop & _ & Hheap & Hrng & Hdata).
  exists corr_data, data, w'. split; [exact Hdrop |].
  assert (well_formed corr_data /\ column_names corr_data `sublist_of` column_names d)
    as [Hwf' Hsub]; [| done].
  destruct Hdata as [[subset Hsubset] | [-> | ->]].
  - destruct (dropna_rows_well_formed _ _ _ Hsubset) as [Hwf' ->]. done.
  - split; [by apply dropna_cols_well_formed |].
    unfold column_names, dropna_cols. cbn [columns].
    apply (fmap_sublist c_name), sublist_filter.
  - done.
Qed.

(** ** The summary table *)

Lemma read_data_run (l : loc) (d : DataFrame) (w : World) :
  heap w !! l = Some (ODataFrame d) -> read_data l w = (inr d, w).
Proof. unfold read_data. by intros ->. Qed.

Lemma read_summary_run (l : loc) (t : Frame label) (w : World) :
  heap w !! l = Some (OSummary t) -> read_summary l w = (inr t, w).
Proof. unfold read_summary. by intros ->. Qed.

(** Assigning, under a new name, a series that the frame accepts appends
    one column, with the values of the series aligned on the index. *)
Lemma setitem_assignable (d : DataFrame) (t : Frame label) (name : label)
    (s : Series label) :
  index t = column_names d -> assignable d s -> name ∉ column_names t ->
  setitem t name s =
    inr (mkFrame (index t)
           (columns t ++ [mkColumn name (s_dtype s) (aligned (column_names d) s)])).
Proof.
  intros Hi [Hlen Hs] Hn. unfold setitem.
  assert (match index t, s_values s with
          | [], _ :: _ =>
              mkFrame (s_index s)
                (map (fun c => mkColumn (c_name c) (c_dtype c) (map (fun _ => None) (s_index s)))
                     (columns t))
          | _, _ => t
          end = t) as ->.
  { destruct (index t) eqn:Ht; [| done]. destruct (s_values s) eqn:Hv; [done |].
    exfalso. destruct Hs as [Heq | [Hne _]]; [| congruence].
    rewrite Heq, <- Hi in Hlen. done. }
  unfold aligned. rewrite <- Hi.
  destruct (decide (s_index s = index t)) as [Heq | Hne].
  - rewrite decide_True by (by left). by rewrite decide_False.
  - destruct Hs as [Heq | [Hnil Hnodup]]; [congruence |].
    rewrite decide_False by (intros [? | ?]; congruence).
    rewrite decide_True by done. by rewrite decide_False.
Qed.

(** A series labelled by the columns of the frame, one value per label, can
    be assigned. *)
Lemma assignable_labelled (d : DataFrame) (s : Series label) :
  s_index s = column_names d -> length (s_values s) = length (s_index s) ->
  assignable d s.
Proof. intros Hi Hlen. split; [done | by left]. Qed.


Lemma fresh_heap_ne (h : gmap loc obj) (l : loc) :
  is_Some (h !! l) -> fresh (dom h) ≠ l.
Proof. intros Hl%elem_of_dom Heq. apply (is_fresh (dom h)). by rewrite Heq. Qed.

Lemma step_read (l df_sum : loc) (d : DataFrame) (h : gmap loc obj) (o : obj)
    (out : list string) (r : nat) :
  df_sum ≠ l -> h !! l = Some (ODataFrame d) ->
  read_data l (mkWorld out (<[df_sum := o]> h) r)
  = (inr d, mkWorld out (<[df_sum := o]> h) r).
Proof. intros Hne Hl. apply read_data_run. simpl. by rewrite lookup_insert_ne. Qed.

Lemma step_setitem (d : DataFrame) (df_sum : loc) (t : Frame label) (name : label)
    (s : Series label) (h : gmap loc obj) (out : list string) (r : nat) :
  index t = column_names d -> assignable d s -> name ∉ column_names t ->
  setitem_at df_sum name s (mkWorld out (<[df_sum := OSummary t]> h) r)
  = (inr tt,
     mkWorld out
       (<[df_sum := OSummary (mkFrame (index t)
                    (columns t ++ [mkColumn name (s_dtype s)
                                     (aligned (column_names d) s)]))]> h) r).
Proof.
  intros Hi Hs Hn. unfold setitem_at.
  erewrite bind_inr; [| apply read_summary_run; simpl; apply lookup_insert_eq].
  rewrite (setitem_assignable d t name s Hi Hs Hn).
  unfold write_summary, lift. py_unfold. simpl. by rewrite insert_insert_eq.
Qed.

Lemma step_setitem_labelled (df_sum : loc) (t : Frame label) (name : label)
    (s : Series label) (h : gmap loc obj) (out : list string) (r : nat) :
  s_index s = index t -> length (s_values s) = length (s_index s) ->
  name ∉ column_names t ->
  setitem_at df_sum name s (mkWorld out (<[df_sum := OSummary t]> h) r)
  = (inr tt,
     mkWorld out
       (<[df_sum := OSummary (mkFrame (index t)
                    (columns t ++ [mkColumn name (s_dtype s) (s_values s)]))]> h) r).
Proof.
  intros Hi Hlen Hn. unfold setitem_at.
  erewrite bind_inr; [| apply read_summary_run; simpl; apply lookup_insert_eq].
  assert (setitem t name s
          = inr (mkFrame (index t) (columns t ++ [mkColumn name (s_dtype s) (s_values s)])))
    as ->.
  { unfold setitem.
    assert (match index t, s_values s with
            | [], _ :: _ =>
                mkFrame (s_index s)
                  (map (fun c => mkColumn (c_name c) (c_dtype c)
                                   (map (fun _ => None) (s_index s)))
                       (columns t))
            | _, _ => t
            end = t) as ->.
    { destruct (index t) eqn:Ht; [| done]. destruct (s_values s) eqn:Hv; [done |].
      by rewrite Hi in Hlen. }
    rewrite decide_True by (by left). by rewrite decide_False. }
  unfold write_summary, lift. py_unfold. simpl. by rewrite insert_insert_eq.
Qed.

Lemma step_getitem (df_sum : loc) (t : Frame label) (name : label)
    (s : Series label) (h : gmap loc obj) (out : list string) (r : nat) :
  getitem t name = inr s ->
  getitem_at df_sum name (mkWorld out (<[df_sum := OSummary t]> h) r)
  = (inr s, mkWorld out (<[df_sum := OSummary t]> h) r).
Proof.
  intros Hg. unfold getitem_at.
  erewrite bind_inr; [| apply read_summary_run; simpl; apply lookup_insert_eq].
  by rewrite Hg.
Qed.

Ltac not_a_column :=
  let H := fresh in
  simpl; intros H;
  repeat (apply elem_of_cons in H as [H | H]; [discriminate H |]);
  by apply elem_of_nil in H.

Ltac series_length :=
  cbn [s_values s_index dtypes isnull_sum series_map index columns app c_values];
  unfold column_names; rewrite ?length_map; reflexivity.

Ltac one_of_the_list :=
  repeat first [apply list_elem_of_here | apply list_elem_of_further].

Section summary_facts.
Context {engine : NumericEngine}.

Lemma step_assign (l df_sum : loc) (d : DataFrame) (t : Frame label) (name : label)
    (st : statistic) (h : gmap loc obj) (out : list string) (r : nat) :
  df_sum ≠ l -> h !! l = Some (ODataFrame d) ->
  index t = column_names d -> name ∉ column_names t ->
  (exists s, reduction st d = inr s /\ assignable d s) ->
  assign_reduction l df_sum name st (mkWorld out (<[df_sum := OSummary t]> h) r)
  = (inr tt,
     mkWorld out
       (<[df_sum := OSummary (mkFrame (index t) (columns t ++ [stat_column d name st]))]> h)
       r).
Proof.
  intros Hne Hl Hi Hn (s & Hs & Hok). unfold assign_reduction.
  erewrite bind_inr; [| by apply step_read].
  unfold stat_column. rewrite Hs.
  erewrite bind_inr; [| reflexivity].
  by apply step_setitem.
Qed.

(** The whole run, when every reduction returns a series that can be
    assigned: a frame is allocated and filled to [summary_frame d], its
    transpose is allocated and returned; nothing is printed. *)
Lemma return_df_summary_run (l : loc) (d : DataFrame) (w : World) :
  heap w !! l = Some (ODataFrame d) ->
  summarizable d ->
  let df_sum := fresh (dom (heap w)) in
  let h := <[df_sum := OSummary (summary_frame d)]> (heap w) in
  return_df_summary l w =
    (inr (fresh (dom h)),
     mkWorld (stdout w) (<[fresh (dom h) := OSummary (T (summary_frame d))]> h) (rng w)).
Proof.
  intros Hl Hsum df_sum h.
  assert (df_sum ≠ l) as Hne by (apply fresh_heap_ne; eauto).
  unfold return_df_summary.
  rewrite (bind_inr _ _ _ _ _ (read_data_run _ _ _ Hl)).
  erewrite bind_inr; [| reflexivity]. fold df_sum.
  do 2 (erewrite bind_inr; [| by apply step_read];
        erewrite bind_inr;
          [| apply step_setitem_labelled; [reflexivity | series_length | not_a_column]]).
  erewrite bind_inr; [| by apply step_getitem].
  erewrite bind_inr; [| by apply step_read].
  erewrite bind_inr;
    [| apply step_setitem_labelled; [reflexivity | series_length | not_a_column]].
  do 10 (erewrite bind_inr;
           [| apply step_assign;
              [done | done | reflexivity | not_a_column
              | apply Hsum; unfold summary_statistics; one_of_the_list]]).
  erewrite bind_inr; [| apply read_summary_run; simpl; apply lookup_insert_eq].
  reflexivity.
Qed.

(** The table a run returns, read back from the store. *)
Lemma return_df_summary_table (l : loc) (d : DataFrame) (w : World) :
  heap w !! l = Some (ODataFrame d) ->
  summarizable d ->
  exists r w',
    return_df_summary l w = (inr r, w') /\
    heap w' !! r = Some (OSummary (T (summary_frame d))).
Proof.
  intros Hl Hsum. eexists _, _. split; [by apply return_df_summary_run |].
  simpl. apply lookup_insert_eq.
Qed.

Lemma column_names_T (t : Frame label) : column_names (T t) = index t.
Proof.
  unfold column_names, T. cbn [columns index]. apply list_eq. intros i.
  rewrite (list_lookup_fmap c_name), list_lookup_imap. by destruct (index t !! i).
Qed.

(** C4. For a dataset on which every reduction returns a series that can
    be assigned, the table returned has one row per statistic, in the
    order they are computed, and one column per column of the dataset,
    under the same labels and in the same order: 13 rows, and each column
    holds 13 cells. *)
Theorem summary_table_shape (l : loc) (d : DataFrame) (w : World) :
  heap w !! l = Some (ODataFrame d) ->
  (forall st,
     st ∈ [Nunique; Mean; Min; Max; Std; Quantile (Q2Qc (1 # 4)); Quantile (Q2Qc (1 # 2));
           Quantile (Q2Qc (3 # 4)); Skew; Kurtosis] ->
     exists s,
       reduction st d = inr s /\
       length (s_values s) = length (s_index s) /\
       (s_index s = column_names d \/ (column_names d <> [] /\ NoDup (s_index s)))) ->
  exists r w' t,
    return_df_summary l w = (inr r, w') /\
    heap w' !! r = Some (OSummary t) /\
    index t =
      LStr <$> ["dtype"; "null_count"; "null_percent"; "unique_vals"; "mean"; "min"; "max";
                "std"; "25%"; "median"; "75%"; "skewness"; "kurtosis"] /\
    column_names t = column_names d /\
    shape t = (13%nat, length (columns d)) /\
    well_formed t.
Proof.
  intros Hl Hsum.
  destruct (return_df_summary_table l d w Hl Hsum) as (r & w' & Hrun & Ht).
  assert (column_names (summary_frame d) = statistic_names) as Hnames.
  { reflexivity. }
  exists r, w', (T (summary_frame d)). split; [done |]. split; [done |].
  split; [exact Hnames |]. split; [apply column_names_T |]. split.
  - unfold shape, T. cbn [index columns]. rewrite length_imap. f_equal.
    cbn [summary_frame index]. unfold column_names. by rewrite length_map.
  - unfold well_formed, T. cbn [index columns]. apply Forall_forall. intros c Hc.
    apply list_elem_of_lookup in Hc as [i Hc].
    rewrite list_lookup_imap in Hc.
    destruct (index (summary_frame d) !! i); simplify_eq/=. reflexivity.
Qed.

(** Column [i] of the returned table, for column [i] of the dataset. *)
Lemma summary_table_column (d : DataFrame) (i : nat) (c : Column) :
  columns d !! i = Some c ->
  exists col,
    columns (T (summary_frame d)) !! i = Some col /\
    c_name col = c_name c /\
    c_values col =
      [Some (SDtype (c_dtype c));
       Some (SInt (Z.of_nat (count_null c)));
       cell_round 2 (cell_mul 100 (cell_truediv (Z.of_nat (len d))
                                     (Some (SInt (Z.of_nat (count_null c))))));
       cell_at (stat_column d "unique_vals" Nunique) i;
       cell_at (stat_column d "mean" Mean) i;
       cell_at (stat_column d "min" Min) i;
       cell_at (stat_column d "max" Max) i;
       cell_at (stat_column d "std" Std) i;
       cell_at (stat_column d "25%" (Quantile (Q2Qc (1 # 4)))) i;
       cell_at (stat_column d "median" (Quantile (Q2Qc (1 # 2)))) i;
       cell_at (stat_column d "75%" (Quantile (Q2Qc (3 # 4)))) i;
       cell_at (stat_column d "skewness" Skew) i;
       cell_at (stat_column d "kurtosis" Kurtosis) i].
Proof.
  intros Hc. eexists. split.
  { unfold T. cbn [columns index summary_frame]. rewrite list_lookup_imap.
    unfold column_names. rewrite (list_lookup_fmap c_name), Hc. reflexivity. }
  split; [reflexivity |].
  cbn [c_values row_of map]. unfold cell_at at 1 2 3.
  cbn [c_values s_values isnull_sum dtypes].
  rewrite !(list_lookup_fmap _ _ i), Hc. reflexivity.
Qed.

(** The first two steps of a run: the dataset is read and the frame of the
    statistics is allocated at a new location. *)
Lemma return_df_summary_keeps (l l' : loc) (o : obj) (out : list string) :
  keeps (fun w => heap w !! l' = Some o /\ stdout w = out) (return_df_summary l).
Proof.
  set (P := fun w => heap w !! l' = Some o /\ stdout w = out).
  assert (forall A B (m : Py A) (k : A -> Py B),
            keeps P m -> (forall x, keeps P (k x)) -> keeps P (m ≫= k)) as Hbind.
  { intros A B m k Hm Hk w Hw. specialize (Hm w Hw).
    unfold mbind, Py_bind. destruct (m w) as [[e | x] w1]; [done |]. by apply Hk. }
  assert (forall A (m : Py A), (forall w, (m w).2 = w) -> keeps P m) as Hsame.
  { intros A m Hm w Hw. by rewrite Hm. }
  assert (forall l0, keeps P (read_data l0)) as Hread.
  { intros l0. apply Hsame. intros w. unfold read_data.
    by destruct (heap w !! l0) as [[|] |]. }
  assert (forall l0, keeps P (read_summary l0)) as Hreads.
  { intros l0. apply Hsame. intros w. unfold read_summary.
    by destruct (heap w !! l0) as [[|] |]. }
  assert (forall A (r : exn + A), keeps P (lift r)) as Hlift.
  { intros A r. apply Hsame. intros w. by destruct r. }
  assert (forall o', keeps P (alloc o')) as Halloc.
  { intros o' w [Hw1 Hw2]. split; [| done]. simpl.
    rewrite lookup_insert_ne; [done |]. apply fresh_heap_ne. eauto. }
  assert (forall df_sum name s, df_sum ≠ l' -> keeps P (setitem_at df_sum name s)) as Hset.
  { intros df_sum name s Hne. unfold setitem_at.
    apply Hbind; [apply Hreads |]. intros t.
    apply Hbind; [apply Hlift |]. intros t'.
    intros w [Hw1 Hw2]. split; [| done]. simpl. by rewrite lookup_insert_ne. }
  assert (forall df_sum name, keeps P (getitem_at df_sum name)) as Hget.
  { intros df_sum name. unfold getitem_at. apply Hbind; [apply Hreads |].
    intros t. apply Hlift. }
  assert (forall df_sum name st, df_sum ≠ l' -> keeps P (assign_reduction l df_sum name st))
    as Hassign.
  { intros df_sum name st Hne. unfold assign_reduction.
    apply Hbind; [apply Hread |]. intros d.
    apply Hbind; [apply Hlift |]. intros s. by apply Hset. }
  intros w [Hw1 Hw2]. unfold return_df_summary.
  unfold mbind at 1, Py_bind at 1.
  destruct (read_data l w) as [[e | d] w1] eqn:Hr.
  { pose proof (Hread l w (conj Hw1 Hw2)) as HP. by rewrite Hr in HP. }
  pose proof (Hread l w (conj Hw1 Hw2)) as HP1. rewrite Hr in HP1. cbn [snd] in HP1.
  unfold mbind at 1, Py_bind at 1. unfold alloc at 1.
  set (df_sum := fresh (dom (heap w1))).
  assert (df_sum ≠ l') as Hne by (apply fresh_heap_ne; destruct HP1; eauto).
  lazymatch goal with
  | |- P (?c ?w2).2 => assert (keeps P c) as Hrest; [| apply Hrest]
  end.
  - repeat first
      [ by apply Hset | by apply Hassign | apply Hget
      | apply Hread | apply Hreads | apply Halloc | apply Hlift
      | apply Hbind; [| intros ?] ].
  - destruct HP1 as [HP1 HP2]. split; [| done]. simpl. by rewrite lookup_insert_ne.
Qed.

(** The objects of the store before a call are the same after it. *)
Lemma return_df_summary_frame (l l' : loc) (w : World) :
  is_Some (heap w !! l') ->
  heap (return_df_summary l w).2 !! l' = heap w !! l'.
Proof.
  intros [o Hl']. rewrite Hl'.
  by apply (return_df_summary_keeps l l' o (stdout w) w).
Qed.

(** C9. [return_df_summary] leaves the dataset it is given as it was: the
    frame object at [l] after the call is the one before the call, and
    nothing is printed. *)
Theorem return_df_summary_preserves_dataset (l : loc) (w : World) :
  heap (return_df_summary l w).2 !! l = heap w !! l /\
  stdout (return_df_summary l w).2 = stdout w.
Proof.
  destruct (heap w !! l) as [o |] eqn:Hl.
  - exact (return_df_summary_keeps l l o (stdout w) w (conj Hl eq_refl)).
  - unfold return_df_summary, read_data. py_unfold. by rewrite Hl.
Qed.
End summary_facts.

Lemma count_null_le (c : Column) : (count_null c <= length (c_values c))%nat.
Proof. apply length_filter. Qed.

Section summary_more.
Context {engine : NumericEngine}.

(** C5. In a dataset with at least one row, on which every reduction
    returns a series that can be assigned, the entry of the returned table
    in row null_percent and in the column of dataset column [c] is a
    float64 [q] that lies within one part in 2^50 of [k / 100], for an
    integer [k] that is [10000 * null_count / row_count] rounded to the
    nearest integer, up to the one part in 2^50 by which float64 arithmetic
    may move that quotient; when the dataset has fewer than 2^35 rows, [k]
    is at most one half away from [10000 * null_count / row_count]. *)
Theorem summary_null_percent (l : loc) (d : DataFrame) (w : World) (i : nat)
    (c : Column) :
  heap w !! l = Some (ODataFrame d) ->
  summarizable d ->
  (0 < len d)%nat ->
  columns d !! i = Some c ->
  let exact :=
    (inject_Z (10000 * Z.of_nat (count_null c)) / inject_Z (Z.of_nat (len d)))%Q in
  exists r w' t col (k : Z) (q : Qc),
    return_df_summary l w = (inr r, w') /\
    heap w' !! r = Some (OSummary t) /\
    index t !! 2%nat = Some (LStr "null_percent") /\
    columns t !! i = Some col /\
    c_name col = c_name c /\
    c_values col !! 2%nat = Some (Some (SFloat q)) /\
    ((k # 100) * (1 - (1 # 2 ^ 50)) <= q /\ q <= (k # 100) * (1 + (1 # 2 ^ 50)))%Q /\
    (exact * (1 - (1 # 2 ^ 50)) - (1 # 2) <= inject_Z k
     /\ inject_Z k <= exact * (1 + (1 # 2 ^ 50)) + (1 # 2))%Q /\
    ((count_null c <= len d)%nat -> Z.of_nat (len d) < 2 ^ 35 ->
     (exact - (1 # 2) <= inject_Z k /\ inject_Z k <= exact + (1 # 2))%Q).
Proof.
  intros Hl Hsum Hrows Hc exact.
  destruct (return_df_summary_table l d w Hl Hsum) as (r & w' & Hrun & Ht).
  destruct (summary_table_column d i c Hc) as (col & Hcol & Hname & Hvalues).
  destruct (null_percent_cell (Z.of_nat (count_null c)) (Z.of_nat (len d))
              ltac:(lia) ltac:(lia))
    as (k & q & Hcell & _ & Hq & Hk & Htie).
  exists r, w', (T (summary_frame d)), col, k, q.
  split; [done |]. split; [done |]. split; [reflexivity |]. split; [done |].
  split; [done |]. split; [by rewrite Hvalues, <- Hcell |].
  split; [exact Hq |]. split; [exact Hk |].
  intros Hle Hsmall. apply Htie; lia.
Qed.



End summary_more.

(** ** The summary table on the sample data *)

(** The engine that reports no statistic serves every dataset. *)
Lemma identity_summarizable (d : DataFrame) : summarizable (engine := identity_engine) d.
Proof.
  intros st _. exists (nan_series d). split; [reflexivity |].
  apply assignable_labelled; [reflexivity |].
  unfold nan_series, column_names. simpl. by rewrite !length_map.
Qed.


Lemma summary_table_shape_witness :
  heap world_AB !! 1%positive = Some (ODataFrame df_AB) /\
  summarizable (engine := identity_engine) df_AB /\
  exists r w' t,
    return_df_summary (engine := identity_engine) 1%positive world_AB = (inr r, w') /\
    heap w' !! r = Some (OSummary t) /\
    index t =
      LStr <$> ["dtype"; "null_count"; "null_percent"; "unique_vals"; "mean"; "min"; "max";
                "std"; "25%"; "median"; "75%"; "skewness"; "kurtosis"] /\
    column_names t = [LStr "A"; LStr "B"] /\
    shape t = (13%nat, 2%nat) /\
    well_formed t.
Proof.
  split; [reflexivity |]. split; [exact (identity_summarizable df_AB) |].
  exact (summary_table_shape (engine := identity_engine) 1%positive df_AB world_AB eq_refl
           (identity_summarizable df_AB)).
Defined.

(** For the two-column dataset [df_AB] the returned table has 13 rows, the
    statistics, and not 2: its rows are not the columns of the dataset.
    When the quantile refuses a column of booleans no table is returned;
    nor is one when a reduction drops the column of text beside two
    numeric columns of the same label, since the series cannot be
    realigned. *)
Lemma summary_table_not_as_claimed :
  (exists r w' t,
     return_df_summary (engine := identity_engine) 1%positive world_AB = (inr r, w') /\
     heap w' !! r = Some (OSummary t) /\
     length (index t) = 13%nat /\
     length (columns df_AB) = 2%nat /\
     length (index t) ≠ length (columns df_AB) /\
     index t ≠ column_names df_AB) /\
  (exists msg,
     (return_df_summary (engine := numeric_only_engine) 1%positive (world_of df_flags)).1
     = inl (TypeError msg)) /\
  (return_df_summary (engine := numeric_only_engine) 1%positive (world_of df_twins)).1
  = inl (ValueError "cannot reindex on an axis with duplicate labels").
Proof.
  split; [| split].
  - destruct (return_df_summary_table (engine := identity_engine)
                1%positive df_AB world_AB eq_refl (identity_summarizable df_AB))
      as (r & w' & Hrun & Ht).
    exists r, w', (T (summary_frame (engine := identity_engine) df_AB)).
    split; [done |]. split; [done |].
    split; [reflexivity |]. split; [reflexivity |].
    split; [simpl; lia |].
    intros H. vm_compute in H. discriminate H.
  - eexists. vm_compute. reflexivity.
  - vm_compute. reflexivity.
Qed.

Lemma summary_null_percent_witness :
  heap world_AB !! 1%positive = Some (ODataFrame df_AB) /\
  summarizable (engine := identity_engine) df_AB /\
  (0 < len df_AB)%nat /\
  exists r w' t col (k : Z) (q : Qc),
    return_df_summary (engine := identity_engine) 1%positive world_AB = (inr r, w') /\
    heap w' !! r = Some (OSummary t) /\
    index t !! 2%nat = Some (LStr "null_percent") /\
    columns t !! 0%nat = Some col /\
    c_name col = "A" /\
    c_values col !! 2%nat = Some (Some (SFloat q)) /\
    ((k # 100) * (1 - (1 # 2 ^ 50)) <= q /\ q <= (k # 100) * (1 + (1 # 2 ^ 50)))%Q /\
    (inject_Z (10000 * 1) / inject_Z 4 * (1 - (1 # 2 ^ 50)) - (1 # 2) <= inject_Z k
     /\ inject_Z k <= inject_Z (10000 * 1) / inject_Z 4 * (1 + (1 # 2 ^ 50)) + (1 # 2))%Q /\
    ((1 <= 4)%nat -> 4 < 2 ^ 35 ->
     (inject_Z (10000 * 1) / inject_Z 4 - (1 # 2) <= inject_Z k
      /\ inject_Z k <= inject_Z (10000 * 1) / inject_Z 4 + (1 # 2))%Q).
Proof.
  split; [reflexivity |]. split; [exact (identity_summarizable df_AB) |].
  split; [unfold len; simpl; lia |].
  apply (summary_null_percent (engine := identity_engine) 1%positive df_AB world_AB 0
           (mkColumn "A" float64 (floats [Some 1; Some 2; Some 3; None]))).
  - reflexivity.
  - exact (identity_summarizable df_AB).
  - unfold len. simpl. lia.
  - reflexivity.
Defined.

(** One null among four rows is 25.0 per cent. *)
Example null_percent_one_in_four :
  cell_round 2 (cell_mul 100 (cell_truediv 4 (Some (SInt 1)))) = Some (SFloat (Qc_of_Z 25)).
Proof. cbn [cell_round cell_mul cell_truediv Z.eqb]. do 2 f_equal. apply Qc_is_canon. reflexivity. Qed.

(** 23 nulls among 160 rows are 14.375 per cent, which rounds to 14.38 at
    two decimals, halves to even or halves up; the quotient 23 / 160 is
    not a float64, its product with 100 and again with 100 falls just
    below 1437.5, and the entry is the float64 nearest to 14.37.  With a
    quantile that refuses a column of booleans there is no entry at all. *)
Lemma null_percent_23_of_160 :
  (exists r w' t col q,
     return_df_summary (engine := identity_engine) 1%positive (world_of df_160) = (inr r, w') /\
     heap w' !! r = Some (OSummary t) /\
     columns df_160 !! 0%nat
       = Some (mkColumn "x" float64 (repeat None 23 ++ repeat (Some (SFloat (Qc_of_Z 1))) 137)) /\
     count_null (mkColumn "x" float64 (repeat None 23 ++ repeat (Some (SFloat (Qc_of_Z 1))) 137))
       = 23%nat /\
     len df_160 = 160%nat /\
     index t !! 2%nat = Some (LStr "null_percent") /\
     columns t !! 0%nat = Some col /\
     c_values col !! 2%nat = Some (Some (SFloat q)) /\
     (100 * 23 / 160 == 14375 # 1000)%Q /\
     rint (100 * (14375 # 1000)) = 1438 /\
     (q < 14371 # 1000)%Q /\
     ~ (q == 1438 # 100)%Q) /\
  (exists msg,
     (return_df_summary (engine := numeric_only_engine) 1%positive (world_of df_flags)).1
     = inl (TypeError msg)).
Proof.
  split.
  - destruct (return_df_summary_table (engine := identity_engine)
                1%positive df_160 (world_of df_160) eq_refl (identity_summarizable df_160))
      as (r & w' & Hrun & Ht).
    destruct (summary_table_column (engine := identity_engine) df_160 0 _ eq_refl)
      as (col & Hcol & Hname & Hvalues).
    eexists r, w', _, col, _. split; [exact Hrun |]. split; [exact Ht |].
    split; [reflexivity |]. split; [by vm_compute |]. split; [by vm_compute |].
    split; [reflexivity |]. split; [exact Hcol |].
    split; [rewrite Hvalues; cbn [lookup list_lookup]; by vm_compute |].
    split; [reflexivity |]. split; [reflexivity |].
    split; [reflexivity |]. by vm_compute.
  - eexists. vm_compute. reflexivity.
Qed.



(** ** Walking a grid of subplots *)

Lemma for_each_seq {S : Type} (body : S -> nat -> Py S)
    (P : nat -> S -> World -> Prop) (n : nat) (s : S) (w : World) :
  (forall i s w, (i < n)%nat -> P i s w ->
     exists s' w', body s i w = (inr s', w') /\ P (Datatypes.S i) s' w') ->
  P 0%nat s w ->
  exists s' w', for_each (seq 0 n) body s w = (inr s', w') /\ P n s' w'.
Proof.
  intros Hbody.
  assert (forall m a s w, (a + m = n)%nat -> P a s w ->
            exists s' w', for_each (seq a m) body s w = (inr s', w') /\ P n s' w') as Hgen.
  { induction m as [| m IH]; intros a s0 w0 Ham HP.
    - replace n with a by lia. by exists s0, w0.
    - destruct (Hbody a s0 w0 ltac:(lia) HP) as (s1 & w1 & Hrun & HP1).
      destruct (IH (Datatypes.S a) s1 w1 ltac:(lia) HP1) as (s2 & w2 & Hrest & HP2).
      exists s2, w2. split; [| done]. simpl. by rewrite (bind_inr _ _ _ _ _ Hrun). }
  intros HP. by apply (Hgen n 0%nat).
Qed.

(** The two nested loops of [return_histograms] and [return_boxplots], for
    any way [cell] of drawing one cell: with at least two rows every cell is
    reached, in row-major order, and an invariant of the cells carries over
    the whole walk. *)
Lemma grid_walk {X : Type} (cell : nat -> Py X) (R : Z)
    (Inv : nat -> gmap (nat * nat) X -> World -> Prop) (w : World) :
  2 <= R ->
  Inv 0%nat ∅ w ->
  (forall i j axes w0,
     (i < Z.to_nat R)%nat -> (j < 3)%nat -> Inv (3 * i + j)%nat axes w0 ->
     exists ax w1,
       cell (3 * i + j)%nat w0 = (inr ax, w1) /\
       Inv (S (3 * i + j)) (<[(i, j) := ax]> axes) w1) ->
  exists axes w',
    for_each (range R)
      (fun st i =>
         for_each (range ncols)
           (fun '(counter, axes) j =>
              axes_item R ncols;;
              ax ← cell counter;
              mret (S counter, <[(i, j) := ax]> axes))
           st)
      (0%nat, ∅) w = (inr ((3 * Z.to_nat R)%nat, axes), w') /\
    Inv (3 * Z.to_nat R)%nat axes w'.
Proof.
  intros HR Hinit Hcell.
  edestruct (for_each_seq
    (fun st i =>
       for_each (range ncols)
         (fun '(counter, axes) j =>
            axes_item R ncols;;
            ax ← cell counter;
            mret (S counter, <[(i, j) := ax]> axes)) st)
    (fun i st w' => st.1 = (3 * i)%nat /\ Inv st.1 st.2 w')
    (Z.to_nat R) (0%nat, ∅) w) as ([counter axes] & w' & Hrun & Hcounter & Hinv).
  - intros i [counter axes] w0 Hi [Hcounter Hinv]. cbn [fst snd] in Hcounter, Hinv.
    edestruct (for_each_seq
      (fun '(counter, axes) j =>
         axes_item R ncols;;
         ax ← cell counter;
         mret (S counter, <[(i, j) := ax]> axes))
      (fun j st w' => st.1 = (3 * i + j)%nat /\ Inv st.1 st.2 w')
      3%nat (counter, axes) w0) as ([counter' axes'] & w1 & Hrun & Hcounter' & Hinv').
    + intros j [counter1 axes1] w1 Hj [Hc1 Hi1]. cbn [fst snd] in Hc1, Hi1. subst counter1.
      destruct (Hcell i j axes1 w1 Hi Hj Hi1) as (ax & w2 & Hax & Hi2).
      exists (S (3 * i + j), <[(i, j) := ax]> axes1), w2. split.
      * assert (axes_item R ncols w1 = (inr tt, w1)) as Hitem.
        { unfold axes_item, ncols. by rewrite (proj2 (Z.ltb_lt 1 R)) by lia. }
        rewrite (bind_inr _ _ _ _ _ Hitem), (bind_inr _ _ _ _ _ Hax). reflexivity.
      * cbn [fst snd]. split; [lia | done].
    + cbn [fst snd]. split; [lia | done].
    + exists (counter', axes'), w1. split; [exact Hrun |].
      cbn [fst snd] in *. split; [lia |]. done.
  - cbn [fst snd]. by split.
  - cbn [fst snd] in Hcounter, Hinv. subst counter. by exists axes, w'.
Qed.

(** Drawing the next cell keeps the grid drawn. *)
Lemma grid_drawn_insert {X : Type} (good : nat -> X -> Prop) (i j : nat) (ax : X)
    (axes : gmap (nat * nat) X) :
  (j < 3)%nat -> good (3 * i + j)%nat ax ->
  grid_drawn good (3 * i + j)%nat axes ->
  grid_drawn good (S (3 * i + j)) (<[(i, j) := ax]> axes).
Proof.
  intros Hj Hgood Hdrawn i' j'. destruct (Hdrawn i' j') as [Hdom Hcells].
  unfold walked in *.
  destruct (decide ((i, j) = (i', j'))) as [[= <- <-] | Hne].
  - rewrite lookup_insert_eq. split.
    + split; [intros _; lia | eauto].
    + by intros ax' [= <-].
  - rewrite lookup_insert_ne by done. split; [| done].
    rewrite Hdom. split; [lia |]. intros [Hj' Hlt]. split; [done |].
    destruct (decide (3 * i' + j' = 3 * i + j)%nat) as [Heq | Hneq]; [| lia].
    exfalso. apply Hne. f_equal; lia.
Qed.

Lemma grid_drawn_empty {X : Type} (good : nat -> X -> Prop) :
  grid_drawn good 0 (∅ : gmap (nat * nat) X).
Proof.
  intros i j. rewrite lookup_empty. unfold walked. split.
  - split; [by intros [? [=]] | lia].
  - by intros ax [=].
Qed.

(** What is good of every cell stays good under a weaker reading. *)
Lemma grid_drawn_impl {X : Type} (good good' : nat -> X -> Prop) (counter : nat)
    (axes : gmap (nat * nat) X) :
  (forall k ax, good k ax -> good' k ax) ->
  grid_drawn good counter axes -> grid_drawn good' counter axes.
Proof.
  intros Himpl Hdrawn i j. destruct (Hdrawn i j) as [Hdom Hcells].
  split; [done |]. intros ax Hax. by apply Himpl, Hcells.
Qed.

(** Position [k] in row-major order is cell [(k / 3, k mod 3)]. *)
Lemma grid_cell_of_position (k : nat) : (3 * (k / 3) + k mod 3 = k)%nat.
Proof. pose proof (Nat.div_mod_eq k 3). lia. Qed.

Lemma walked_all (R i j : nat) : walked (3 * R) i j <-> (i < R /\ j < 3)%nat.
Proof. unfold walked. lia. Qed.

(** The cell of position [k] of a grid that is drawn and has room for it. *)
Lemma grid_drawn_at {X : Type} (good : nat -> X -> Prop) (R k : nat)
    (axes : gmap (nat * nat) X) :
  grid_drawn good (3 * R) axes -> (k < 3 * R)%nat ->
  exists ax, axes !! ((k / 3)%nat, (k mod 3)%nat) = Some ax /\ good k ax.
Proof.
  intros Hdrawn Hk.
  destruct (Hdrawn (k / 3)%nat (k mod 3)%nat) as [Hdom Hgood].
  rewrite walked_all in Hdom.
  pose proof (grid_cell_of_position k) as Hpos.
  pose proof (Nat.mod_upper_bound k 3 ltac:(lia)) as Hmod.
  destruct (proj2 Hdom) as [ax Hax]; [lia |].
  exists ax. split; [done |]. rewrite <- Hpos. by apply Hgood.
Qed.

(** ** Selecting a column by its label *)

(** Among distinct labels the label of a column selects that column. *)
Lemma loc_column_unique {I : Type} (d : Frame I) (k : nat) (c : Column) :
  NoDup (column_names d) -> columns d !! k = Some c ->
  loc_column d (c_name c) = inr c.
Proof.
  unfold loc_column, column_names. intros Hnodup Hk.
  assert (filter (fun c' => c_name c' = c_name c) (columns d) = [c]) as ->; [| done].
  revert k Hnodup Hk. induction (columns d) as [| c0 cols IH]; intros k Hnodup Hk; [done |].
  apply NoDup_cons in Hnodup as [Hnotin Hnodup].
  rewrite filter_cons. destruct k as [| k].
  - injection Hk as ->. rewrite decide_True by done. f_equal.
    apply filter_none, Forall_forall. intros c' Hc' Heq.
    apply Hnotin. rewrite <- Heq. by apply (list_elem_of_fmap_2 c_name).
  - rewrite decide_False; [by apply (IH k) |].
    intros Heq. apply Hnotin. rewrite Heq.
    apply (list_elem_of_fmap_2 c_name). by eapply list_elem_of_lookup_2.
Qed.

(** Two positions that pass a filter leave two elements at least. *)
Lemma filter_two {A : Type} (P : A -> Prop) `{!forall x, Decision (P x)} (l : list A)
    (j k : nat) (x y : A) :
  j ≠ k -> l !! j = Some x -> l !! k = Some y -> P x -> P y ->
  (2 <= length (filter P l))%nat.
Proof.
  intros Hjk Hj Hk Hx Hy. revert j k Hjk Hj Hk.
  induction l as [| z l IH]; intros j k Hjk Hj Hk; [done |].
  rewrite filter_cons. destruct j as [| j], k as [| k]; try done.
  - injection Hj as ->. rewrite decide_True by done. simpl.
    assert (y ∈ filter P l) as Hin.
    { apply list_elem_of_filter. split; [done |]. by eapply list_elem_of_lookup_2. }
    destruct (filter P l); [by apply elem_of_nil in Hin | simpl; lia].
  - injection Hk as ->. rewrite decide_True by done. simpl.
    assert (x ∈ filter P l) as Hin.
    { apply list_elem_of_filter. split; [done |]. by eapply list_elem_of_lookup_2. }
    destruct (filter P l); [by apply elem_of_nil in Hin | simpl; lia].
  - specialize (IH j k ltac:(lia) Hj Hk). case_decide; simpl; lia.
Qed.

(** A label that names several columns selects a frame, which [df.loc]
    refuses as a mask. *)
Lemma loc_column_duplicated {I : Type} (d : Frame I) (j k : nat) (c c' : Column) :
  j ≠ k -> columns d !! j = Some c -> columns d !! k = Some c' -> c_name c' = c_name c ->
  loc_column d (c_name c) = inl (ValueError "Cannot index with multidimensional key").
Proof.
  intros Hjk Hj Hk Hname. unfold loc_column.
  pose proof (filter_two (fun c0 => c_name c0 = c_name c) (columns d) j k c c'
                Hjk Hj Hk eq_refl Hname) as Hlen.
  destruct (filter _ (columns d)) as [| c1 [| c2 rest]]; simpl in Hlen; [lia | lia | done].
Qed.

Lemma column_names_lookup {I : Type} (d : Frame I) (k : nat) (c : Column) :
  columns d !! k = Some c ->
  (k <? length (column_names d))%nat = true /\ column_names d !!! k = c_name c.
Proof.
  intros Hk. unfold column_names. split.
  - apply Nat.ltb_lt. rewrite length_map. by eapply lookup_lt_Some.
  - apply list_lookup_total_correct. by rewrite (list_lookup_fmap c_name), Hk.
Qed.

Lemma column_names_beyond {I : Type} (d : Frame I) (k : nat) :
  columns d !! k = None -> (k <? length (column_names d))%nat = false.
Proof.
  intros Hk%lookup_ge_None. apply Nat.ltb_ge. unfold column_names. by rewrite length_map.
Qed.

(** ** The boxplot grid *)

Lemma bind_inl {A B : Type} (m : Py A) (k : A -> Py B) (w w' : World) (e : exn) :
  m w = (inl e, w') -> (m ≫= k) w = (inl e, w').
Proof. unfold mbind, Py_bind. by intros ->. Qed.

Lemma for_each_raise {A S : Type} (x : A) (l : list A) (body : S -> A -> Py S) (s : S)
    (w w' : World) (e : exn) :
  body s x w = (inl e, w') -> for_each (x :: l) body s w = (inl e, w').
Proof. intros Hbody. cbn [for_each]. by apply bind_inl. Qed.

Ltac py_run := repeat progress (py_unfold; cbn beta iota zeta).

Section box_facts.
Context {random : RandomSource} {plotter : Plotter}.

Lemma sample_run (k : nat) (xs : list cell) (w : World) :
  (k <= length xs)%nat ->
  exists points state,
    sample k xs w = (inr points, mkWorld (stdout w) (heap w) state) /\
    length points = k /\ points ⊆+ xs /\
    points = map (fun i => xs !!! i) (choice (rng w) (length xs) k).1.
Proof.
  intros Hk. unfold sample. rewrite (proj2 (Nat.leb_le _ _) Hk).
  pose proof (choice_length (rng w) (length xs) k Hk) as Hlen.
  pose proof (choice_NoDup (rng w) (length xs) k) as Hnodup.
  pose proof (choice_bound (rng w) (length xs) k) as Hbound.
  destruct (choice (rng w) (length xs) k) as [locs state]. simpl in *.
  eexists _, _. split; [reflexivity |]. split; [by rewrite length_map |].
  split; [| done].
  assert (locs ⊆+ seq 0 (length xs)) as Hsub.
  { apply NoDup_submseteq; [done |]. intros i Hi. apply elem_of_seq. specialize (Hbound i Hi). lia. }
  assert ((fun i => xs !!! i) <$> seq 0 (length xs) = xs) as Hall.
  { apply list_eq. intros i. rewrite list_lookup_fmap.
    destruct (xs !! i) as [x |] eqn:Hx.
    - rewrite (proj2 (lookup_seq 0 (length xs) i i)); [| split; [done | by eapply lookup_lt_Some]].
      simpl. f_equal. by apply list_lookup_total_correct.
    - rewrite lookup_ge_None_2; [done |]. rewrite length_seq. by apply lookup_ge_None. }
  change (((fun i => xs !!! i) <$> locs) ⊆+ xs).
  etrans; [apply (fmap_submseteq (fun i => xs !!! i)), Hsub |]. by rewrite Hall.
Qed.

Lemma boxplot_cell_off (d : DataFrame) (sw : bool) (k : nat) (w : World) :
  columns d !! k = None -> boxplot_cell d sw k w = (inr AxisOff, w).
Proof.
  intros Hk. unfold boxplot_cell. by rewrite (column_names_beyond d k Hk).
Qed.

Lemma swarm_ok_mono (c : Column) (swarm : list cell) (out out' : list string) :
  out `prefix_of` out' -> swarm_ok c swarm out -> swarm_ok c swarm out'.
Proof.
  intros [rest ->] [Hall Hsample]. split; [done |].
  intros Hgt. destruct (Hsample Hgt) as (? & ? & ? & ?).
  repeat split; try done. apply elem_of_app. by left.
Qed.

Lemma box_good_mono (d : DataFrame) (sw : bool) (out out' : list string) (k : nat)
    (ax : Subplot) :
  out `prefix_of` out' -> box_good d sw out k ax -> box_good d sw out' k ax.
Proof.
  intros Hpre. unfold box_good. destruct (columns d !! k) as [c |]; [| done].
  intros (swarm & -> & Hswarm). exists swarm. split; [done |].
  destruct sw; [| done]. destruct Hswarm as (points & -> & Hok).
  exists points. split; [done |]. by eapply swarm_ok_mono.
Qed.

Lemma swarm_warnings_one (c : Column) :
  swarm_warnings [c]
  = if (2000 <? length (non_null c))%nat
    then [swarm_warning (c_name c) (length (non_null c))] else [].
Proof.
  unfold swarm_warnings.
  change (omap ?f [c]) with (match f c with Some y => [y] | None => [] end).
  cbv beta. by destruct (2000 <? length (non_null c))%nat.
Qed.

Lemma swarm_warnings_take_S (cols : list Column) (k : nat) :
  swarm_warnings (take (S k) cols)
  = (swarm_warnings (take k cols) ++ swarm_warnings (option_list (cols !! k)))%list.
Proof.
  unfold swarm_warnings. rewrite <- omap_app. f_equal.
  destruct (cols !! k) as [c |] eqn:Hk.
  - by apply take_S_r.
  - apply lookup_ge_None in Hk. simpl. rewrite app_nil_r.
    rewrite !take_ge; [done | lia | lia].
Qed.

(** One cell of the boxplot grid: what is drawn, and what it prints. *)
Lemma boxplot_cell_run (d : DataFrame) (swarmplot : bool) (k : nat) (w : World) :
  NoDup (column_names d) ->
  (forall c, columns d !! k = Some c -> box_drawable c) ->
  exists ax w',
    boxplot_cell d swarmplot k w = (inr ax, w') /\
    box_good d swarmplot (stdout w') k ax /\
    heap w' = heap w /\
    stdout w' = (stdout w ++
      (if swarmplot then swarm_warnings (option_list (columns d !! k)) else []))%list /\
    (swarmplot = false -> w' = w).
Proof.
  intros Hnodup Hdraw. unfold box_good.
  destruct (columns d !! k) as [c |] eqn:Hk.
  - destruct (Hdraw c eq_refl) as [Hbox Hswarm].
    destruct (column_names_lookup d k c Hk) as [Hlt Hname].
    unfold boxplot_cell, loc_notnull, null_count.
    rewrite Hlt, Hname, (loc_column_unique d k c Hnodup Hk).
    py_run. cbn [c_values]. rewrite Hbox. py_run.
    change (option_list (Some c)) with [c]. rewrite swarm_warnings_one.
    destruct swarmplot; cbn [andb].
    + destruct (Nat.leb_spec (length (non_null c)) 2000) as [Hle | Hgt].
      * rewrite (proj2 (Nat.ltb_ge _ _) Hle).
        rewrite (Hswarm (non_null c)) by done. py_run.
        eexists _, w. split; [reflexivity |]. split.
        { eexists. split; [reflexivity |]. eexists. split; [reflexivity |].
          split; [done | lia]. }
        split; [done |]. split; [by rewrite app_nil_r | done].
      * rewrite (proj2 (Nat.ltb_lt _ _) Hgt).
        edestruct (sample_run 2000 (non_null c)
                     (mkWorld (stdout w ++ [swarm_warning (c_name c) (length (non_null c))])
                              (heap w) (rng w)))
          as (points & state & Hrun & Hlen & Hsub & Hdrawn); [lia |].
        eexists _, _. split.
        { rewrite Hrun. py_run. rewrite (Hswarm points Hsub). reflexivity. }
        cbn [stdout heap rng] in *.
        split.
        { eexists. split; [reflexivity |]. exists points. split; [done |].
          split; [lia |]. intros _. split; [done |]. split; [done |].
          split; [by eexists |].
          apply elem_of_app. right. by apply list_elem_of_singleton. }
        split; [done |]. split; [done | done].
    + eexists _, w. split; [reflexivity |]. split.
      { eexists. split; reflexivity. }
      split; [done |]. split; [by rewrite app_nil_r | done].
  - rewrite (boxplot_cell_off d swarmplot k w Hk).
    eexists _, w. split; [reflexivity |]. split; [done |]. split; [done |].
    split; [| done]. destruct swarmplot; by rewrite app_nil_r.
Qed.

(** The whole grid: with at least one numeric column, distinct labels and
    drawing calls that return, every cell is drawn as it must be. *)
Lemma boxplots_run (data : DataFrame + Series Z) (swarmplot : bool) (w : World) :
  let d := select_dtypes_number (df (init data)) in
  (0 < length (columns d))%nat ->
  NoDup (column_names d) ->
  Forall box_drawable (columns d) ->
  exists fig w',
    return_boxplots (init data) swarmplot w = (inr fig, w') /\
    fig_suptitle fig
      = (if swarmplot then "Swarmplots" else "Boxplots") +:+ " of numeric data fields" /\
    grid_drawn (box_good d swarmplot (stdout w'))
               (3 * Z.to_nat (nrows (init data))) (fig_axes fig) /\
    heap w' = heap w /\
    stdout w' = (stdout w ++ (if swarmplot then swarm_warnings (columns d) else []))%list /\
    (swarmplot = false -> w' = w).
Proof.
  intros d Hpos Hnodup Hdraw.
  set (self := init data) in *.
  assert (nrows self = grid_nrows (length (columns d))) as Hrows by reflexivity.
  destruct (grid_nrows_covers (length (columns d)) Hpos) as [Htwo Hcover].
  rewrite <- Hrows in Htwo, Hcover. unfold ncols in Hcover.
  unfold return_boxplots. fold d.
  edestruct (grid_walk (boxplot_cell d swarmplot) (nrows self)
               (fun counter axes w' =>
                  grid_drawn (box_good d swarmplot (stdout w')) counter axes /\
                  heap w' = heap w /\
                  stdout w' = (stdout w ++
                    (if swarmplot then swarm_warnings (take counter (columns d)) else []))%list /\
                  (swarmplot = false -> w' = w)) w Htwo)
    as (axes & w' & Hrun & Hdrawn & Hheap & Hout & Hsame).
  - split; [apply grid_drawn_empty |]. split; [done |]. split; [| done].
    destruct swarmplot; by rewrite app_nil_r.
  - intros i j axes w0 Hi Hj (Hdrawn & Hheap & Hout & Hsame).
    destruct (boxplot_cell_run d swarmplot (3 * i + j) w0 Hnodup)
      as (ax & w1 & Hax & Hgood & Hheap1 & Hout1 & Hsame1).
    { intros c Hc. eapply (proj1 (Forall_forall _ _) Hdraw).
      by eapply list_elem_of_lookup_2. }
    exists ax, w1. split; [exact Hax |]. split.
    { apply grid_drawn_insert; [done | done |].
      eapply grid_drawn_impl; [| exact Hdrawn].
      intros k ax'. apply box_good_mono. rewrite Hout1. by apply prefix_app_r. }
    split; [congruence |]. split.
    + rewrite Hout1, Hout. destruct swarmplot; [| by rewrite !app_nil_r].
      by rewrite swarm_warnings_take_S, app_assoc.
    + intros Hsw. rewrite (Hsame1 Hsw). by apply Hsame.
  - rewrite (bind_inr _ _ _ _ _ Hrun). eexists _, w'. split; [reflexivity |].
    split; [by destruct swarmplot |]. split; [exact Hdrawn |]. split; [done |].
    split; [| done]. rewrite Hout. destruct swarmplot; [| done].
    rewrite take_ge; [done |]. lia.
Qed.

(** With at least one numeric column the grid has room for every one. *)
Lemma grid_room (data : DataFrame + Series Z) (k : nat) :
  let d := select_dtypes_number (df (init data)) in
  (k < length (columns d))%nat -> (k < 3 * Z.to_nat (nrows (init data)))%nat.
Proof.
  intros d Hk.
  assert (nrows (init data) = grid_nrows (length (columns d))) as Hrows by reflexivity.
  destruct (grid_nrows_covers (length (columns d)) ltac:(lia)) as [Htwo Hcover].
  rewrite <- Hrows in Htwo, Hcover. unfold ncols in Hcover. lia.
Qed.

(** X14. With the swarm overlay requested, on a dataset whose numeric
    columns have distinct labels and for which the drawing calls return,
    every numeric column is drawn in its cell of the grid with an overlay:
    all its non-null values when there are at most 2000 of them; otherwise
    exactly 2000 of them, those at the positions of one unweighted draw
    without replacement of the generator, and the warning that names the
    column and its number of non-null values is printed. *)
Theorem boxplots_swarm_overlay (data : DataFrame + Series Z) (w : World) (k : nat)
    (c : Column) :
  let d := select_dtypes_number (df (init data)) in
  NoDup (column_names d) ->
  Forall box_drawable (columns d) ->
  columns d !! k = Some c ->
  let values := non_null c in
  exists fig w' swarm,
    return_boxplots (init data) true w = (inr fig, w') /\
    fig_axes fig !! ((k / 3)%nat, (k mod 3)%nat)
      = Some (BoxPlot (label_str (c_name c) +:+ ": " +:+ newline +:+ "("
                         +:+ pretty (count_null c) +:+ " NaN values dropped)")
                      values (Some swarm)) /\
    ((length values <= 2000)%nat -> swarm = values) /\
    ((2000 < length values)%nat ->
       length swarm = 2000%nat /\ swarm ⊆+ values /\
       (exists state,
          swarm = map (fun i => values !!! i) (choice state (length values) 2000).1) /\
       ("There are " +:+ pretty (length values) +:+ " non-null data points in the '"
          +:+ label_str (c_name c)
          +:+ "' field.  2000 random points (only) will be plotted in the swarmplot.")
       ∈ stdout w').
Proof.
  intros d Hnodup Hdraw Hk values.
  pose proof (lookup_lt_Some _ _ _ Hk) as Hlt.
  destruct (boxplots_run data true w ltac:(fold d; lia) Hnodup Hdraw)
    as (fig & w' & Hrun & _ & Hdrawn & _).
  destruct (grid_drawn_at _ _ k _ Hdrawn (grid_room data k Hlt)) as (ax & Hax & Hgood).
  unfold box_good in Hgood. fold d in Hgood. rewrite Hk in Hgood.
  destruct Hgood as (swarm & -> & points & -> & Hall & Hsample).
  exists fig, w', points. split; [exact Hrun |]. split; [exact Hax |].
  split; [exact Hall | exact Hsample].
Qed.

(** X9. With at least one numeric column, distinct labels of the numeric
    columns and drawing calls that return, [return_boxplots] raises
    nothing; the figure has exactly the cells of [nrows] rows of 3; numeric
    column [k] is drawn in cell [(k / 3, k mod 3)] as the boxplot of its
    non-null values, titled with its label and its number of nulls, with a
    swarm overlay exactly when the swarm is requested; every cell after the
    last column is switched off. *)
Theorem boxplots_grid (data : DataFrame + Series Z) (swarmplot : bool) (w : World) :
  let d := select_dtypes_number (df (init data)) in
  let R := Z.to_nat (nrows (init data)) in
  (0 < length (columns d))%nat ->
  NoDup (column_names d) ->
  Forall box_drawable (columns d) ->
  exists fig w',
    return_boxplots (init data) swarmplot w = (inr fig, w') /\
    (forall i j, is_Some (fig_axes fig !! (i, j)) <-> (i < R /\ j < 3)%nat) /\
    (forall k c, columns d !! k = Some c ->
       exists swarm,
         fig_axes fig !! ((k / 3)%nat, (k mod 3)%nat)
           = Some (BoxPlot (label_str (c_name c) +:+ ": " +:+ newline +:+ "("
                              +:+ pretty (count_null c) +:+ " NaN values dropped)")
                           (non_null c) swarm) /\
         (is_Some swarm <-> swarmplot = true)) /\
    (forall i j, (i < R)%nat -> (j < 3)%nat -> (length (columns d) <= 3 * i + j)%nat ->
       fig_axes fig !! (i, j) = Some AxisOff).
Proof.
  intros d R Hpos Hnodup Hdraw.
  destruct (boxplots_run data swarmplot w Hpos Hnodup Hdraw)
    as (fig & w' & Hrun & _ & Hdrawn & _).
  exists fig, w'. split; [exact Hrun |]. split; [| split].
  - intros i j. rewrite <- walked_all. apply Hdrawn.
  - intros k c Hk.
    pose proof (lookup_lt_Some _ _ _ Hk) as Hlt.
    destruct (grid_drawn_at _ _ k _ Hdrawn (grid_room data k Hlt)) as (ax & Hax & Hgood).
    unfold box_good in Hgood. fold d in Hgood. rewrite Hk in Hgood.
    destruct Hgood as (swarm & -> & Hswarm).
    exists swarm. split; [exact Hax |].
    destruct swarmplot.
    + destruct Hswarm as (points & -> & _). split; [done | eauto].
    + subst swarm. split; [by intros [? [=]] | done].
  - intros i j Hi Hj Hge.
    destruct (Hdrawn i j) as [Hdom Hgood]. rewrite walked_all in Hdom.
    destruct (proj2 Hdom) as [ax Hax]; [by split |].
    specialize (Hgood ax Hax). unfold box_good in Hgood. fold d in Hgood.
    rewrite (lookup_ge_None_2 _ _ Hge) in Hgood. by subst ax.
Qed.

(** X10. What [return_boxplots] prints, under the same conditions: with
    the swarm requested, one warning for each numeric column with more than
    2000 non-null values, in the order of the columns, and nothing else;
    without it nothing, and the world, the state of the random generator
    included, is as it was.  The figure is titled Swarmplots or Boxplots
    accordingly. *)
Theorem boxplots_output (data : DataFrame + Series Z) (swarmplot : bool) (w : World) :
  let d := select_dtypes_number (df (init data)) in
  (0 < length (columns d))%nat ->
  NoDup (column_names d) ->
  Forall box_drawable (columns d) ->
  exists fig w',
    return_boxplots (init data) swarmplot w = (inr fig, w') /\
    fig_suptitle fig
      = (if swarmplot then "Swarmplots of numeric data fields"
         else "Boxplots of numeric data fields") /\
    heap w' = heap w /\
    stdout w' =
      (stdout w ++
         (if swarmplot
          then omap (fun c =>
                       if (2000 <? length (non_null c))%nat
                       then Some ("There are " +:+ pretty (length (non_null c))
                                    +:+ " non-null data points in the '"
                                    +:+ label_str (c_name c)
                                    +:+ "' field.  2000 random points (only) will be plotted in the swarmplot.")
                       else None)
                    (columns d)
          else []))%list /\
    (swarmplot = false -> w' = w).
Proof.
  intros d Hpos Hnodup Hdraw.
  destruct (boxplots_run data swarmplot w Hpos Hnodup Hdraw)
    as (fig & w' & Hrun & Htitle & _ & Hheap & Hout & Hsame).
  exists fig, w'. split; [exact Hrun |]. split; [| done].
  rewrite Htitle. by destruct swarmplot.
Qed.
End box_facts.

(** ** The histogram grid *)

Section hist_facts.
Context {engine : NumericEngine} {plotter : Plotter}.

Lemma hist_cell_run (d : DataFrame) (k : nat) (w : World) :
  NoDup (column_names d) ->
  (forall c, columns d !! k = Some c -> hist_drawable c) ->
  exists ax, hist_cell d k w = (inr ax, w) /\ hist_good d k ax.
Proof.
  intros Hnodup Hdraw. unfold hist_good.
  destruct (columns d !! k) as [c |] eqn:Hk.
  - destruct (Hdraw c eq_refl) as [Hhist Hstats].
    set (col_no_null := mkColumn (c_name c) (c_dtype c) (non_null c)) in *.
    destruct (Hstats Mean ltac:(one_of_the_list)) as [mean Hmean].
    destruct (Hstats Median ltac:(one_of_the_list)) as [median Hmedian].
    destruct (Hstats (Quantile (Q2Qc (1 # 4))) ltac:(one_of_the_list)) as [q25 Hq25].
    destruct (Hstats (Quantile (Q2Qc (3 # 4))) ltac:(one_of_the_list)) as [q75 Hq75].
    destruct (column_names_lookup d k c Hk) as [Hlt Hname].
    unfold hist_cell, loc_notnull, null_count.
    rewrite Hlt, Hname, (loc_column_unique d k c Hnodup Hk).
    py_run. cbn [c_values]. rewrite Hhist. py_run.
    fold col_no_null. rewrite Hmean, Hmedian, Hq25, Hq75. py_run.
    eexists. split; [reflexivity |]. by exists mean, median, q25, q75.
  - unfold hist_cell. rewrite (column_names_beyond d k Hk).
    eexists. split; reflexivity.
Qed.

Lemma histograms_run (data : DataFrame + Series Z) (w : World) :
  let d := select_dtypes_number (df (init data)) in
  (0 < length (columns d))%nat ->
  NoDup (column_names d) ->
  Forall hist_drawable (columns d) ->
  exists fig,
    return_histograms (init data) w = (inr fig, w) /\
    hist_suptitle fig = "Histograms of numeric data fields" /\
    grid_drawn (hist_good d) (3 * Z.to_nat (nrows (init data))) (hist_axes fig).
Proof.
  intros d Hpos Hnodup Hdraw.
  set (self := init data) in *.
  assert (nrows self = grid_nrows (length (columns d))) as Hrows by reflexivity.
  destruct (grid_nrows_covers (length (columns d)) Hpos) as [Htwo _].
  rewrite <- Hrows in Htwo.
  unfold return_histograms. fold d.
  edestruct (grid_walk (hist_cell d) (nrows self)
               (fun counter axes w' => w' = w /\ grid_drawn (hist_good d) counter axes) w Htwo)
    as (axes & w' & Hrun & -> & Hdrawn).
  - split; [done | apply grid_drawn_empty].
  - intros i j axes w0 Hi Hj [-> Hdrawn].
    destruct (hist_cell_run d (3 * i + j) w Hnodup) as (ax & Hax & Hgood).
    { intros c Hc. eapply (proj1 (Forall_forall _ _) Hdraw).
      by eapply list_elem_of_lookup_2. }
    exists ax, w. split; [exact Hax |]. split; [done |].
    by apply grid_drawn_insert.
  - rewrite (bind_inr _ _ _ _ _ Hrun). eexists. split; [reflexivity |]. by split.
Qed.

(** X12. With at least one numeric column, distinct labels of the numeric
    columns, and a drawing call and reductions that return,
    [return_histograms] raises nothing and leaves the world as it was; the
    figure has exactly the cells of [nrows] rows of 3; numeric column [k]
    is drawn in cell [(k / 3, k mod 3)] as the histogram of its non-null
    values, in colour [k mod 10], titled with its label and its number of
    nulls, with lines at the mean, the median and the 25th and 75th
    percentiles of the non-null values; every cell after the last column is
    switched off. *)
Theorem histograms_grid (data : DataFrame + Series Z) (w : World) :
  let d := select_dtypes_number (df (init data)) in
  let R := Z.to_nat (nrows (init data)) in
  (0 < length (columns d))%nat ->
  NoDup (column_names d) ->
  Forall hist_drawable (columns d) ->
  exists fig,
    return_histograms (init data) w = (inr fig, w) /\
    hist_suptitle fig = "Histograms of numeric data fields" /\
    (forall i j, is_Some (hist_axes fig !! (i, j)) <-> (i < R /\ j < 3)%nat) /\
    (forall k c, columns d !! k = Some c ->
       let col_no_null := mkColumn (c_name c) (c_dtype c) (non_null c) in
       exists mean median q25 q75,
         reduce Mean col_no_null = inr mean /\
         reduce Median col_no_null = inr median /\
         reduce (Quantile (Q2Qc (1 # 4))) col_no_null = inr q25 /\
         reduce (Quantile (Q2Qc (3 # 4))) col_no_null = inr q75 /\
         hist_axes fig !! ((k / 3)%nat, (k mod 3)%nat)
           = Some (Hist (label_str (c_name c) +:+ ": " +:+ newline +:+ "("
                           +:+ pretty (count_null c) +:+ " NaN values dropped)")
                        (k mod 10) (non_null c)
                        [("Mean", mean); ("Median", median);
                         ("25th percentile", q25); ("75th percentile", q75)])) /\
    (forall i j, (i < R)%nat -> (j < 3)%nat -> (length (columns d) <= 3 * i + j)%nat ->
       hist_axes fig !! (i, j) = Some HistOff).
Proof.
  intros d R Hpos Hnodup Hdraw.
  destruct (histograms_run data w Hpos Hnodup Hdraw) as (fig & Hrun & Htitle & Hdrawn).
  exists fig. split; [exact Hrun |]. split; [exact Htitle |]. split; [| split].
  - intros i j. rewrite <- walked_all. apply Hdrawn.
  - intros k c Hk col_no_null.
    pose proof (lookup_lt_Some _ _ _ Hk) as Hlt.
    destruct (grid_drawn_at _ _ k _ Hdrawn (grid_room data k Hlt)) as (ax & Hax & Hgood).
    unfold hist_good in Hgood. fold d in Hgood. rewrite Hk in Hgood.
    destruct Hgood as (mean & median & q25 & q75 & H1 & H2 & H3 & H4 & ->).
    by exists mean, median, q25, q75.
  - intros i j Hi Hj Hge.
    destruct (Hdrawn i j) as [Hdom Hgood]. rewrite walked_all in Hdom.
    destruct (proj2 Hdom) as [ax Hax]; [by split |].
    specialize (Hgood ax Hax). unfold hist_good in Hgood. fold d in Hgood.
    rewrite (lookup_ge_None_2 _ _ Hge) in Hgood. by subst ax.
Qed.
End hist_facts.

Section grid_theorems.
Context {engine : NumericEngine} {random : RandomSource} {plotter : Plotter}.

(** X11. For a dataset without any numeric column the grid has one row,
    and [return_histograms] and [return_boxplots] both raise [TypeError] on
    the first [axes[i][j]], before anything is drawn or printed. *)
Theorem grids_without_numeric_column (data : DataFrame + Series Z) (swarmplot : bool)
    (w : World) :
  length (columns (select_dtypes_number (df (init data)))) = 0%nat ->
  nrows (init data) = 1 /\
  return_histograms (init data) w
    = (inl (TypeError "'AxesSubplot' object is not subscriptable"), w) /\
  return_boxplots (init data) swarmplot w
    = (inl (TypeError "'AxesSubplot' object is not subscriptable"), w).
Proof.
  intros Hnone.
  assert (nrows (init data) = 1) as Hrows.
  { change (nrows (init data))
      with (grid_nrows (length (columns (select_dtypes_number (df (init data)))))).
    by rewrite Hnone. }
  split; [exact Hrows |].
  unfold return_histograms, return_boxplots. rewrite Hrows. split; reflexivity.
Qed.

(** X15. When the label of the first numeric column is also the label of
    another numeric column, selecting the column by that label yields a
    frame, and [return_histograms] and [return_boxplots] both raise
    [ValueError] in the first cell, before anything is drawn or printed. *)
Theorem grids_duplicated_label (data : DataFrame + Series Z) (swarmplot : bool)
    (w : World) (k : nat) (c c' : Column) :
  let d := select_dtypes_number (df (init data)) in
  columns d !! 0%nat = Some c ->
  k <> 0%nat -> columns d !! k = Some c' -> c_name c' = c_name c ->
  return_histograms (init data) w
    = (inl (ValueError "Cannot index with multidimensional key"), w) /\
  return_boxplots (init data) swarmplot w
    = (inl (ValueError "Cannot index with multidimensional key"), w).
Proof.
  intros d Hc Hk Hc' Hname.
  pose proof (lookup_lt_Some _ _ _ Hc) as Hpos.
  assert (nrows (init data) = grid_nrows (length (columns d))) as Hrows by reflexivity.
  destruct (grid_nrows_covers (length (columns d)) Hpos) as [Htwo _].
  rewrite <- Hrows in Htwo.
  destruct (column_names_lookup d 0 c Hc) as [Hlt Hfirst].
  pose proof (loc_column_duplicated d 0 k c c' ltac:(lia) Hc Hc' Hname) as Hdup.
  assert (exists n, range (nrows (init data)) = 0%nat :: seq 1 n) as [n Hrange].
  { unfold range. destruct (Z.to_nat (nrows (init data))) as [| n] eqn:Hn; [lia |].
    by exists n. }
  assert (axes_item (nrows (init data)) ncols w = (inr tt, w)) as Hitem.
  { unfold axes_item, ncols. by rewrite (proj2 (Z.ltb_lt 1 _)) by lia. }
  assert (hist_cell d 0 w
          = (inl (ValueError "Cannot index with multidimensional key"), w)) as Hhist.
  { unfold hist_cell, loc_notnull. by rewrite Hlt, Hfirst, Hdup. }
  assert (boxplot_cell d swarmplot 0 w
          = (inl (ValueError "Cannot index with multidimensional key"), w)) as Hbox.
  { unfold boxplot_cell, loc_notnull. by rewrite Hlt, Hfirst, Hdup. }
  split.
  - unfold return_histograms. fold d. rewrite Hrange.
    apply bind_inl, for_each_raise. change (range ncols) with [0; 1; 2]%nat.
    apply for_each_raise. cbv beta iota.
    rewrite (bind_inr _ _ _ _ _ Hitem). by apply bind_inl.
  - unfold return_boxplots. fold d. rewrite Hrange.
    apply bind_inl, for_each_raise. change (range ncols) with [0; 1; 2]%nat.
    apply for_each_raise. cbv beta iota.
    rewrite (bind_inr _ _ _ _ _ Hitem). by apply bind_inl.
Qed.
End grid_theorems.

(** ** The heatmap and the grids on the sample data *)

Lemma accepted_kendall : "kendall" ∈ ["pearson"; "spearman"; "kendall"].
Proof. do 2 apply list_elem_of_further. apply list_elem_of_here. Qed.

Lemma accepted_pearson : "pearson" ∈ ["pearson"; "spearman"; "kendall"].
Proof. apply list_elem_of_here. Qed.

Lemma column_C_missing : exists c, c ∈ [LStr "C"] /\ c ∉ column_names df_AB.
Proof.
  exists (LStr "C"). split; [apply list_elem_of_here |].
  simpl. intros H.
  repeat (apply elem_of_cons in H as [H | H]; [discriminate H |]).
  by apply elem_of_nil in H.
Qed.

Lemma column_A_named :
  (exists c, c ∈ [LStr "A"] /\ c ∉ column_names df_AB)
  \/ (exists names : list string, [LStr "A"] = LStr <$> names).
Proof. right. by exists ["A"]. Qed.

Lemma df_AB_well_formed : well_formed df_AB.
Proof. repeat constructor. Qed.

Lemma df_AB_numeric :
  (0 < length (columns (select_dtypes_number (df (init (inl df_AB))))))%nat.
Proof. simpl. lia. Qed.

Lemma df_AB_labels : NoDup (column_names (select_dtypes_number (df (init (inl df_AB))))).
Proof. apply (bool_decide_unpack _). by vm_compute. Qed.

Lemma df_2001_labels : NoDup (column_names (select_dtypes_number (df (init (inl df_2001))))).
Proof. apply NoDup_singleton. Qed.

Lemma column_A_present : forall n, n ∈ ["A"] -> LStr n ∈ column_names df_AB.
Proof. intros n ->%list_elem_of_singleton. apply list_elem_of_here. Qed.

(** The quiet plotting library draws every column. *)
Lemma quiet_boxes (cols : list Column) : Forall (box_drawable (plotter := quiet_plotter)) cols.
Proof. apply Forall_forall. intros c _. by split. Qed.

Lemma quiet_hists (cols : list Column) :
  Forall (hist_drawable (engine := identity_engine) (plotter := quiet_plotter)) cols.
Proof. apply Forall_forall. intros c _. split; [done |]. intros st _. by exists None. Qed.

(** With no numeric column the grid has one row, [plt.subplots] returns a
    one-dimensional array of axes, and drawing the first cell fails. *)
Example boxplots_no_numeric_column :
  nrows (init (inl df_text)) = 1 /\
  return_boxplots (random := first_positions) (plotter := quiet_plotter)
                  (init (inl df_text)) false world0 =
    (inl (TypeError "'AxesSubplot' object is not subscriptable"), world0).
Proof. split; reflexivity. Qed.

Lemma heatmap_data_missing_column_witness :
  (exists c, c ∈ [LStr "C"] /\ c ∉ column_names df_AB) /\
  "pearson" ∈ ["pearson"; "spearman"; "kendall"] /\
  exists corrs,
    corr (engine := identity_engine) df_AB "pearson" = inr corrs /\
    return_heatmap_data (engine := identity_engine) df_AB "pearson" (DropList [LStr "C"]) world0 =
      (inr (<["corrs" := PFrame corrs]>
              (<["title_text" := PStr "rows or columns"]> (<["drop_count" := PInt 0]> ∅))),
       mkWorld ["Specified column does not exist in data.  No Null values were dropped."]
               ∅ 0%nat).
Proof.
  split; [exact column_C_missing |]. split; [exact accepted_pearson |].
  exact (proj2 (heatmap_data_missing_column (engine := identity_engine)
                  df_AB "pearson" [LStr "C"] world0 column_C_missing) accepted_pearson).
Defined.

(** 'any_rows' on [df_AB]: four rows, three without null, one dropped. *)
Lemma heatmap_data_any_rows_witness :
  "pearson" ∈ ["pearson"; "spearman"; "kendall"] /\
  exists corr_data corrs,
    dropna_rows None df_AB = inr corr_data /\
    rows corr_data = [[Some (SFloat (Qc_of_Z 1)); Some (SInt 4)];
                      [Some (SFloat (Qc_of_Z 2)); Some (SInt 5)];
                      [Some (SFloat (Qc_of_Z 3)); Some (SInt 6)]] /\
    corr (engine := identity_engine) corr_data "pearson" = inr corrs /\
    return_heatmap_data (engine := identity_engine) df_AB "pearson" (DropStr "any_rows") world0 =
      (inr (<["corrs" := PFrame corrs]>
              (<["title_text" := PStr "rows"]> (<["drop_count" := PInt (4 - 3)]> ∅))),
       world0).
Proof.
  split; [exact accepted_pearson |].
  exact (heatmap_data_any_rows (engine := identity_engine) df_AB "pearson" world0
           accepted_pearson).
Defined.

Example heatmap_data_any_rows_AB :
  return_heatmap_data (engine := identity_engine) df_AB "pearson" (DropStr "any_rows") world0 =
    (inr (<["corrs" := PFrame (identity_matrix df_AB)]>
            (<["title_text" := PStr "rows"]> (<["drop_count" := PInt 1]> ∅))),
     world0).
Proof. reflexivity. Qed.

Lemma heatmap_data_keys_witness :
  "kendall" ∈ ["pearson"; "spearman"; "kendall"] /\
  ((exists c, c ∈ [LStr "A"] /\ c ∉ column_names df_AB)
   \/ (exists names : list string, [LStr "A"] = LStr <$> names)) /\
  exists (data : gmap string pyval) (w' : World) (corrs : Frame label)
         (count : Z) (text : string),
    return_heatmap_data (engine := identity_engine) df_AB "kendall" (DropList [LStr "A"]) world0
      = (inr data, w') /\
    data !! "corrs" = Some (PFrame corrs) /\
    data !! "drop_count" = Some (PInt count) /\
    0 <= count /\
    data !! "title_text" = Some (PStr text) /\
    dom data = {["corrs"; "drop_count"; "title_text"]}.
Proof.
  split; [exact accepted_kendall |]. split; [exact column_A_named |].
  exact (heatmap_data_keys (engine := identity_engine) df_AB "kendall" (DropList [LStr "A"])
           world0 accepted_kendall column_A_named).
Defined.

(** Three calls of [return_heatmap_data] that return no dictionary: a
    method string that [corr] does not accept raises [ValueError]; so does
    an array-like [drop_criteria], at its comparison with 'any_rows'; a list
    that names the existing column 0 by its integer label raises
    [TypeError] when the labels are joined for the description. *)
Lemma heatmap_data_not_returned :
  (return_heatmap_data (engine := identity_engine) df_AB "invalid" DropNone world0).1
  = inl (ValueError "method must be either 'pearson', 'spearman', 'kendall', or a callable, 'invalid' was supplied") /\
  (return_heatmap_data (engine := identity_engine) df_AB "pearson" DropArray world0).1
  = inl (ValueError "The truth value of an array with more than one element is ambiguous. Use a.any() or a.all()") /\
  LInt 0 ∈ column_names df_01 /\
  (return_heatmap_data (engine := identity_engine) df_01 "pearson" (DropList [LInt 0]) world0).1
  = inl (TypeError "sequence item 0: expected str instance, int found").
Proof.
  split; [reflexivity |]. split; [reflexivity |].
  split; [apply list_elem_of_here | reflexivity].
Qed.

Lemma heatmap_data_any_cols_witness :
  well_formed df_AB /\
  "pearson" ∈ ["pearson"; "spearman"; "kendall"] /\
  exists corrs,
    corr (engine := identity_engine)
         (mkFrame (index df_AB) [mkColumn "B" int64 (ints [4; 5; 6; 7])]) "pearson"
      = inr corrs /\
    return_heatmap_data (engine := identity_engine) df_AB "pearson" (DropStr "any_cols") world0 =
      (inr (<["corrs" := PFrame corrs]>
              (<["title_text" := PStr "columns"]> (<["drop_count" := PInt (2 - 1)]> ∅))),
       world0).
Proof.
  split; [exact df_AB_well_formed |]. split; [exact accepted_pearson |].
  exact (heatmap_data_any_cols (engine := identity_engine) df_AB "pearson" world0
           df_AB_well_formed accepted_pearson).
Defined.

Lemma heatmap_data_named_columns_witness :
  (forall n, n ∈ ["A"] -> LStr n ∈ column_names df_AB) /\
  "pearson" ∈ ["pearson"; "spearman"; "kendall"] /\
  exists corr_data corrs,
    dropna_rows (Some [LStr "A"]) df_AB = inr corr_data /\
    rows corr_data = row_of (columns df_AB) <$> [0; 1; 2]%nat /\
    column_names corr_data = [LStr "A"; LStr "B"] /\
    corr (engine := identity_engine) corr_data "pearson" = inr corrs /\
    return_heatmap_data (engine := identity_engine) df_AB "pearson" (DropList [LStr "A"]) world0 =
      (inr (<["corrs" := PFrame corrs]>
              (<["title_text" := PStr "rows (subsetted on A) Null values"]>
                 (<["drop_count" := PInt (4 - 3)]> ∅))),
       world0).
Proof.
  split; [exact column_A_present |]. split; [exact accepted_pearson |].
  exact (heatmap_data_named_columns (engine := identity_engine) df_AB "pearson" ["A"] world0
           column_A_present accepted_pearson).
Defined.

Lemma heatmap_data_no_drop_witness :
  DropStr "bogus" ≠ DropStr "any_rows" /\
  DropStr "bogus" ≠ DropArray /\
  "pearson" ∈ ["pearson"; "spearman"; "kendall"] /\
  exists corrs,
    corr (engine := identity_engine) df_AB "pearson" = inr corrs /\
    return_heatmap_data (engine := identity_engine) df_AB "pearson" (DropStr "bogus") world0 =
      (inr (<["corrs" := PFrame corrs]>
              (<["title_text" := PStr "rows or columns"]> (<["drop_count" := PInt 0]> ∅))),
       mkWorld ["Incorrect drop criteria specified.  No Null values were dropped."] ∅ 0%nat).
Proof.
  assert (DropStr "bogus" ≠ DropStr "any_rows") as H1 by discriminate.
  assert (DropStr "bogus" ≠ DropStr "any_cols") as H2 by discriminate.
  assert (forall names, DropStr "bogus" ≠ DropList names) as H3 by discriminate.
  assert (DropStr "bogus" ≠ DropArray) as H4 by discriminate.
  split; [exact H1 |]. split; [exact H4 |]. split; [exact accepted_pearson |].
  exact (heatmap_data_no_drop (engine := identity_engine) df_AB "pearson" (DropStr "bogus")
           world0 H1 H2 H3 H4 accepted_pearson).
Defined.

Lemma return_heatmap_accepted_witness :
  (2 <= length (columns (select_dtypes_number (df (init (inl df_AB))))))%nat /\
  "pearson" ∈ ["pearson"; "spearman"; "kendall"] /\
  exists fig data,
    return_heatmap (engine := identity_engine) (init (inl df_AB)) "pearson" DropNone world0
      = (inr (Some fig, mkDfSummary df_AB 2 (Some data)), world0) /\
    hm_data fig = identity_matrix df_AB /\
    hm_mask fig = [[true; true]; [false; true]] /\
    hm_title fig
      = "Heatmap of Pearson correlation between numeric fields with 0 rows or columns dropped".
Proof.
  assert (2 <= length (columns (select_dtypes_number (df (init (inl df_AB))))))%nat
    as Hcols by (simpl; lia).
  split; [exact Hcols |]. split; [exact accepted_pearson |].
  destruct (return_heatmap_accepted (engine := identity_engine) (init (inl df_AB)) "pearson"
              DropNone world0 Hcols accepted_pearson I)
    as (data & w1 & corrs & count & text & Hdata & _ & _ & _ & _).
  eexists _, _. split; [reflexivity |]. split; [reflexivity |]. split; reflexivity.
Defined.

Lemma grid_nrows_tight_witness :
  (0 < 7)%nat /\ (3 < 7)%nat /\
  2 <= grid_nrows 7 /\ 7 <= grid_nrows 7 * ncols /\ (grid_nrows 7 - 1) * ncols < 7.
Proof.
  assert (0 < 7)%nat as H0 by lia. assert (3 < 7)%nat as H3 by lia.
  destruct (grid_nrows_tight 7 H0) as (Htwo & Hcover & Htight).
  split; [exact H0 |]. split; [exact H3 |]. split; [exact Htwo |].
  split; [exact Hcover |]. exact (Htight H3).
Defined.

Lemma corr_data_well_formed_witness :
  well_formed df_AB /\
  exists corr_data data w',
    drop_nulls df_AB (DropStr "any_rows") ∅ world0 = (inr (corr_data, data), w') /\
    well_formed corr_data /\
    column_names corr_data `sublist_of` column_names df_AB /\
    heap w' = heap world0 /\ rng w' = rng world0.
Proof.
  split; [exact df_AB_well_formed |].
  exact (corr_data_well_formed df_AB (DropStr "any_rows") world0 df_AB_well_formed I).
Defined.

(** The histograms of [df_AB]: column B in the second cell, in the second
    colour, with its four lines; the other cells of the two rows are
    switched off. *)
Lemma histograms_grid_witness :
  (0 < length (columns (select_dtypes_number (df (init (inl df_AB))))))%nat /\
  NoDup (column_names (select_dtypes_number (df (init (inl df_AB))))) /\
  exists fig,
    return_histograms (engine := identity_engine) (plotter := quiet_plotter)
                      (init (inl df_AB)) world0 = (inr fig, world0) /\
    hist_suptitle fig = "Histograms of numeric data fields" /\
    hist_axes fig !! (0%nat, 1%nat)
      = Some (Hist ("B: " +:+ newline +:+ "(0 NaN values dropped)") 1
                (ints [4; 5; 6; 7])
                [("Mean", None); ("Median", None);
                 ("25th percentile", None); ("75th percentile", None)]) /\
    hist_axes fig !! (0%nat, 2%nat) = Some HistOff /\
    hist_axes fig !! (1%nat, 0%nat) = Some HistOff /\
    ~ is_Some (hist_axes fig !! (2%nat, 0%nat)).
Proof.
  split; [exact df_AB_numeric |]. split; [exact df_AB_labels |].
  destruct (histograms_grid (engine := identity_engine) (plotter := quiet_plotter)
              (inl df_AB) world0 df_AB_numeric df_AB_labels (quiet_hists _))
    as (fig & Hrun & Htitle & Hdom & Hcols & Hoff).
  exists fig. split; [exact Hrun |]. split; [exact Htitle |].
  split.
  { destruct (Hcols 1%nat (mkColumn "B" int64 (ints [4; 5; 6; 7])) eq_refl)
      as (mean & median & q25 & q75 & [= <-] & [= <-] & [= <-] & [= <-] & Hax).
    exact Hax. }
  split; [apply Hoff; vm_compute; lia |]. split; [apply Hoff; vm_compute; lia |].
  intros Hsome. apply Hdom in Hsome. vm_compute in Hsome. lia.
Defined.

(** The boxplots of [df_AB] with the swarm: column B in the second cell
    with an overlay, the last cell of the second row switched off. *)
Lemma boxplots_grid_witness :
  (0 < length (columns (select_dtypes_number (df (init (inl df_AB))))))%nat /\
  NoDup (column_names (select_dtypes_number (df (init (inl df_AB))))) /\
  exists fig w' swarm,
    return_boxplots (random := first_positions) (plotter := quiet_plotter)
                    (init (inl df_AB)) true world0 = (inr fig, w') /\
    fig_axes fig !! (0%nat, 1%nat)
      = Some (BoxPlot ("B: " +:+ newline +:+ "(0 NaN values dropped)")
                (ints [4; 5; 6; 7]) swarm) /\
    is_Some swarm /\
    fig_axes fig !! (1%nat, 2%nat) = Some AxisOff.
Proof.
  split; [exact df_AB_numeric |]. split; [exact df_AB_labels |].
  destruct (boxplots_grid (random := first_positions) (plotter := quiet_plotter)
              (inl df_AB) true world0 df_AB_numeric df_AB_labels (quiet_boxes _))
    as (fig & w' & Hrun & Hdom & Hcols & Hoff).
  destruct (Hcols 1%nat (mkColumn "B" int64 (ints [4; 5; 6; 7])) eq_refl)
    as (swarm & Hax & Hswarm).
  exists fig, w', swarm. split; [exact Hrun |]. split; [exact Hax |].
  split; [by apply Hswarm |]. apply Hoff; vm_compute; lia.
Defined.

(** The swarm of the 2001 values of [df_2001] prints the one warning. *)
Lemma boxplots_output_witness :
  (0 < length (columns (select_dtypes_number (df (init (inl df_2001))))))%nat /\
  NoDup (column_names (select_dtypes_number (df (init (inl df_2001))))) /\
  exists fig w',
    return_boxplots (random := first_positions) (plotter := quiet_plotter)
                    (init (inl df_2001)) true world0 = (inr fig, w') /\
    fig_suptitle fig = "Swarmplots of numeric data fields" /\
    heap w' = ∅ /\
    stdout w' =
      ["There are 2001 non-null data points in the 'x' field.  2000 random points (only) will be plotted in the swarmplot."].
Proof.
  assert (0 < length (columns (select_dtypes_number (df (init (inl df_2001))))))%nat
    as Hpos by (simpl; lia).
  split; [exact Hpos |]. split; [exact df_2001_labels |].
  destruct (boxplots_output (random := first_positions) (plotter := quiet_plotter)
              (inl df_2001) true world0 Hpos df_2001_labels (quiet_boxes _))
    as (fig & w' & Hrun & Htitle & Hheap & Hout & _).
  exists fig, w'. split; [exact Hrun |]. split; [exact Htitle |]. split; [exact Hheap |].
  rewrite Hout. by vm_compute.
Defined.

(** A column of 2001 non-null values: the first 2000 are plotted by the
    generator that draws the first positions, and the warning names the
    column and the count 2001. *)
Lemma boxplots_swarm_overlay_witness :
  NoDup (column_names (select_dtypes_number (df (init (inl df_2001))))) /\
  columns (select_dtypes_number (df (init (inl df_2001)))) !! 0%nat
    = Some (mkColumn "x" int64 (repeat (Some (SInt 7)) 2001)) /\
  exists fig w' swarm,
    return_boxplots (random := first_positions) (plotter := quiet_plotter)
                    (init (inl df_2001)) true world0 = (inr fig, w') /\
    fig_axes fig !! (0%nat, 0%nat)
      = Some (BoxPlot ("x: " +:+ newline +:+ "(0 NaN values dropped)")
                      (repeat (Some (SInt 7)) 2001) (Some swarm)) /\
    length swarm = 2000%nat /\
    swarm ⊆+ repeat (Some (SInt 7)) 2001 /\
    "There are 2001 non-null data points in the 'x' field.  2000 random points (only) will be plotted in the swarmplot."
      ∈ stdout w'.
Proof.
  split; [exact df_2001_labels |]. split; [reflexivity |].
  assert (non_null (mkColumn "x" int64 (repeat (Some (SInt 7)) 2001))
          = repeat (Some (SInt 7)) 2001) as Hnon by (by vm_compute).
  destruct (boxplots_swarm_overlay (random := first_positions) (plotter := quiet_plotter)
              (inl df_2001) world0 0
              (mkColumn "x" int64 (repeat (Some (SInt 7)) 2001))
              df_2001_labels (quiet_boxes _) eq_refl)
    as (fig & w' & swarm & Hrun & Hax & _ & Hsample).
  rewrite Hnon in Hax, Hsample. rewrite repeat_length in Hsample.
  destruct (Hsample ltac:(lia)) as (Hlen & Hsub & _ & Hwarn).
  exists fig, w', swarm. split; [exact Hrun |]. split; [exact Hax |].
  split; [exact Hlen |]. split; [exact Hsub |]. exact Hwarn.
Defined.

(** At most 2000 values: all of them are in the overlay and nothing is
    printed. *)
Example boxplots_swarm_of_AB :
  exists fig,
    return_boxplots (random := first_positions) (plotter := quiet_plotter)
                    (init (inl df_AB)) true world0 = (inr fig, world0) /\
    fig_axes fig !! (0%nat, 0%nat)
      = Some (BoxPlot ("A: " +:+ newline +:+ "(1 NaN values dropped)")
                      (floats [Some 1; Some 2; Some 3])
                      (Some (floats [Some 1; Some 2; Some 3]))).
Proof. eexists. split; [by vm_compute | by vm_compute]. Qed.

Lemma grids_without_numeric_column_witness :
  length (columns (select_dtypes_number (df (init (inl df_text))))) = 0%nat /\
  nrows (init (inl df_text)) = 1 /\
  return_histograms (engine := identity_engine) (plotter := quiet_plotter)
                    (init (inl df_text)) world0
    = (inl (TypeError "'AxesSubplot' object is not subscriptable"), world0) /\
  return_boxplots (random := first_positions) (plotter := quiet_plotter)
                  (init (inl df_text)) true world0
    = (inl (TypeError "'AxesSubplot' object is not subscriptable"), world0).
Proof.
  split; [reflexivity |].
  exact (grids_without_numeric_column (engine := identity_engine) (random := first_positions)
           (plotter := quiet_plotter) (inl df_text) true world0 eq_refl).
Defined.

(** Two numeric columns labelled x: both grids fail in the first cell. *)
Lemma grids_duplicated_label_witness :
  columns (select_dtypes_number (df (init (inl df_twins)))) !! 0%nat
    = Some (mkColumn "x" int64 (ints [1; 2])) /\
  columns (select_dtypes_number (df (init (inl df_twins)))) !! 1%nat
    = Some (mkColumn "x" int64 (ints [3; 4])) /\
  return_histograms (engine := identity_engine) (plotter := quiet_plotter)
                    (init (inl df_twins)) world0
    = (inl (ValueError "Cannot index with multidimensional key"), world0) /\
  return_boxplots (random := first_positions) (plotter := quiet_plotter)
                  (init (inl df_twins)) true world0
    = (inl (ValueError "Cannot index with multidimensional key"), world0).
Proof.
  split; [reflexivity |]. split; [reflexivity |].
  exact (grids_duplicated_label (engine := identity_engine) (random := first_positions)
           (plotter := quiet_plotter) (inl df_twins) true world0 1
           (mkColumn "x" int64 (ints [1; 2])) (mkColumn "x" int64 (ints [3; 4]))
           eq_refl ltac:(lia) eq_refl eq_refl).
Defined.
